(** * Sales-pivot rollup: a shallow embedding of [app.py]

    The development follows the [/upload] route of [app.py]: the column
    checks, the cluster and BU classifiers, the two [groupby(...).sum()]
    frames, their outer [merge], the per-cluster loop that emits subtotal
    and employee rows, and the BU performance loop.

    Numbers.  pandas stores the measure as int64 or float64 and the targets
    as float64.  Cells are modelled by [num]: [NaN] or a finite value
    carried as a canonical rational ([Qc]); infinities are left out.
    Sums, differences, quotients and [round] are exact here:
    [round(x, 2)] is round-half-to-even on the exact value.  The program
    computes in binary64, rounds employee rows with Python's [round] and
    subtotals with numpy's (times 100, [rint], over 100), and adds an
    all-integer column in int64; on fractional or very large amounts these
    can differ from the exact values and from one another.  They agree on
    whole amounts whose sizes add up to at most 2^46 ([whole_amounts]):
    every sum and a hundred times it is then an integer below 2^53.  The
    statements below about rounded figures and about the conservation of
    totals are made on such amounts.  Every concrete input used below is a
    small integer or a dyadic fraction on which binary64 computes the same
    values.

    Strings.  A Python [str] is modelled by its UTF-8 bytes ([string]);
    substring, prefix and code-point order agree with the byte-level ones,
    and [strip] removes the UTF-8 encodings of the characters that
    [str.isspace] accepts, from both ends. *)

From Stdlib Require Import List String Ascii Bool ZArith QArith Qcanon Lia
  Permutation Sorted RelationClasses OrderedTypeEx.
Import ListNotations.

Set Implicit Arguments.

(* ================================================================== *)
(** * Numbers *)
(* ================================================================== *)

Module Num.

(** A float64 cell: NaN or a finite value. *)
Inductive num : Type :=
| NaN
| Fin (q : Qc).

Definition of_Z (z : Z) : num := Fin (Q2Qc (inject_Z z)).
Definition zero : num := of_Z 0.

Definition is_nan (x : num) : bool :=
  match x with NaN => true | Fin _ => false end.

Definition lift2 (f : Qc -> Qc -> Qc) (x y : num) : num :=
  match x, y with
  | Fin a, Fin b => Fin (f a b)
  | _, _ => NaN
  end.

Definition add : num -> num -> num := lift2 Qcplus.
Definition sub : num -> num -> num := lift2 Qcminus.
Definition mul : num -> num -> num := lift2 Qcmult.

(** Every division of the program is guarded by a test on its divisor
    (or divides by the constant [EMP_SCALE]); the model gives [NaN] on a
    zero divisor, a value that no guarded call reaches. *)
Definition div (x y : num) : num :=
  match x, y with
  | Fin a, Fin b => if Qc_eq_bool b 0 then NaN else Fin (Qcdiv a b)
  | _, _ => NaN
  end.

(** [x > 0]; a comparison with NaN is false. *)
Definition gt0 (x : num) : bool :=
  match x with
  | NaN => false
  | Fin q => match Qccompare q 0 with Gt => true | _ => false end
  end.

(** Python truth value of a float: nonzero, and NaN is true. *)
Definition truthy (x : num) : bool :=
  match x with
  | NaN => true
  | Fin q => negb (Qc_eq_bool q 0)
  end.

(** Nearest integer, ties to even. *)
Definition rint (q : Q) : Z :=
  let n := Qnum q in
  let d := Zpos (Qden q) in
  let f := (n / d)%Z in
  let r := (n mod d)%Z in
  match (2 * r ?= d)%Z with
  | Lt => f
  | Gt => (f + 1)%Z
  | Eq => if Z.even f then f else (f + 1)%Z
  end.

Fixpoint pow10 (n : nat) : positive :=
  match n with
  | O => 1%positive
  | S k => (10 * pow10 k)%positive
  end.

(** The number of units of [10^-ndigits] nearest to [q]. *)
Definition units (q : Qc) (ndigits : nat) : Z :=
  rint (Qmult q (inject_Z (Zpos (pow10 ndigits)))).

(** [round(x, ndigits)]. *)
Definition round (x : num) (ndigits : nat) : num :=
  match x with
  | NaN => NaN
  | Fin q => Fin (Q2Qc (Qmake (units q ndigits) (pow10 ndigits)))
  end.

(** [fillna(0)] on one cell. *)
Definition fillna0 (x : num) : num :=
  match x with NaN => zero | Fin _ => x end.

(** [Series.sum()] with [skipna=True]: NaN cells are skipped and the
    empty sum is 0. *)
Definition sum_skipna (l : list num) : Qc :=
  fold_left (fun acc x => match x with NaN => acc | Fin q => Qcplus acc q end)
            l (Q2Qc 0).

(** [Series.sum(min_count=1)]: NaN unless at least one cell is valid. *)
Definition sum_min_count1 (l : list num) : num :=
  if forallb is_nan l then NaN else Fin (sum_skipna l).

End Num.
Export Num.

(* ================================================================== *)
(** * Python objects found in cells *)
(* ================================================================== *)

(** An object cell of a sheet: a string, a number, or a missing value
    (an empty Excel cell, read as NaN). *)
Inductive pyobj : Type :=
| PStr (s : string)
| PNum (q : Qc)
| PNull.

Definition pyobj_eqb (a b : pyobj) : bool :=
  match a, b with
  | PStr s, PStr t => String.eqb s t
  | PNum p, PNum q => Qc_eq_bool p q
  | PNull, PNull => true
  | _, _ => false
  end.

Definition isnull (a : pyobj) : bool :=
  match a with PNull => true | _ => false end.

(** A value stored in an emitted row: [None] or a float. *)
Inductive pyval : Type :=
| PyNone
| PyFloat (x : num).

(** pandas' notion of a null entry: [None] or NaN. *)
Definition is_null (v : pyval) : Prop :=
  v = PyNone \/ v = PyFloat NaN.

(* ================================================================== *)
(** * String primitives of Python used by the route *)
(* ================================================================== *)

Module PyStr.

(** [p in s] for two strings: [p] occurs as a substring of [s]. *)
Fixpoint contains (p s : string) : bool :=
  String.prefix p s
  || match s with
     | EmptyString => false
     | String _ t => contains p t
     end.

(** [s.startswith(p)]. *)
Definition startswith (s p : string) : bool := String.prefix p s.

(** The characters that [str.strip] removes, those for which
    [str.isspace] holds, each in its UTF-8 encoding: U+0009 to U+000D,
    U+001C to U+0020, U+0085, U+00A0, U+1680, U+2000 to U+200A, U+2028,
    U+2029, U+202F, U+205F and U+3000. *)
Definition WHITESPACE : list (list ascii) :=
  map (map ascii_of_nat)
    [[9]; [10]; [11]; [12]; [13]; [28]; [29]; [30]; [31]; [32];
     [194; 133]; [194; 160]; [225; 154; 128];
     [226; 128; 128]; [226; 128; 129]; [226; 128; 130]; [226; 128; 131];
     [226; 128; 132]; [226; 128; 133]; [226; 128; 134]; [226; 128; 135];
     [226; 128; 136]; [226; 128; 137]; [226; 128; 138];
     [226; 128; 168]; [226; 128; 169]; [226; 128; 175]; [226; 129; 159];
     [227; 128; 128]]%nat.

(** [s] without its prefix [p], when it begins with [p]. *)
Fixpoint drop_prefix (p s : list ascii) : option (list ascii) :=
  match p, s with
  | [], _ => Some s
  | a :: p', b :: s' => if Ascii.eqb a b then drop_prefix p' s' else None
  | _ :: _, [] => None
  end.

(** [s] without its first character, when that is one of [ws]. *)
Fixpoint drop_space (ws : list (list ascii)) (s : list ascii)
  : option (list ascii) :=
  match ws with
  | [] => None
  | w :: rest =>
      match drop_prefix w s with
      | Some t => Some t
      | None => drop_space rest s
      end
  end.

(** Characters of [ws] are removed from the front of [s] until none is
    left there; [fuel] bounds the number of characters removed. *)
Fixpoint strip_fuel (ws : list (list ascii)) (fuel : nat) (s : list ascii)
  : list ascii :=
  match fuel with
  | O => s
  | S f =>
      match drop_space ws s with
      | Some t => strip_fuel ws f t
      | None => s
      end
  end.

Definition lstrip_bytes (s : list ascii) : list ascii :=
  strip_fuel WHITESPACE (List.length s) s.

(** The end of a string is stripped as the front of its reverse: the
    encoding of the last character, read backwards, begins the reverse. *)
Definition rstrip_bytes (s : list ascii) : list ascii :=
  rev (strip_fuel (map (@rev ascii) WHITESPACE) (List.length s) (rev s)).

Definition lstrip (s : string) : string :=
  string_of_list_ascii (lstrip_bytes (list_ascii_of_string s)).

Definition rstrip (s : string) : string :=
  string_of_list_ascii (rstrip_bytes (list_ascii_of_string s)).

(** [s.strip()]. *)
Definition strip (s : string) : string :=
  string_of_list_ascii (rstrip_bytes (lstrip_bytes (list_ascii_of_string s))).

(** [sep.join(l)]. *)
Fixpoint join (sep : string) (l : list string) : string :=
  match l with
  | [] => EmptyString
  | [x] => x
  | x :: rest => (x ++ sep ++ join sep rest)%string
  end.

(** [c in l] for a list of strings. *)
Definition mem (c : string) (l : list string) : bool :=
  existsb (String.eqb c) l.

Definition digit (z : Z) : string :=
  String (ascii_of_nat (48 + Z.to_nat z)) EmptyString.

(** Decimal numeral of a natural number, most significant digit first. *)
Fixpoint digits_fuel (fuel : nat) (z : Z) (acc : string) : string :=
  match fuel with
  | O => acc
  | S f =>
      let acc' := (digit (z mod 10) ++ acc)%string in
      if (z <? 10)%Z then acc' else digits_fuel f (z / 10)%Z acc'
  end.

Definition str_nat (z : Z) : string :=
  digits_fuel (S (Z.to_nat (Z.log2 z))) z EmptyString.

(** [str(x)] of a float that [round(_, 2)] returned (below 1e16 in
    magnitude, where Python prints positional notation, and not the
    negative zero, which [num] does not have): the shortest
    decimal numeral that reads back as the same float, which keeps at
    least one and at most two fractional digits. *)
Definition str_float2 (x : num) : string :=
  match x with
  | NaN => "nan"%string
  | Fin q =>
      let k := units q 2 in
      let a := Z.abs k in
      let ip := (a / 100)%Z in
      let fp := (a mod 100)%Z in
      let frac :=
        if (fp mod 10 =? 0)%Z then digit (fp / 10)
        else (digit (fp / 10) ++ digit (fp mod 10))%string in
      ((if (k <? 0)%Z then "-" else "") ++ str_nat ip ++ "." ++ frac)%string
  end.

End PyStr.

(* ================================================================== *)
(** * Constants of the module *)
(* ================================================================== *)

Definition ID_COLS : list string :=
  ["Cluster"; "Employee Responsible"; "Helios Code"]%string.

Definition EMP_SCALE : num := of_Z 1.
Definition EMP_DEC : nat := 2.

(** The dict literal, in insertion order. *)
Definition EMPLOYEE_CLUSTER_MAP : list (string * string) :=
  [ ("Pritesh", "CG"); ("Abinash", "CG"); ("Mayur", "CG");
    ("TBH", "CG"); ("Arti", "CG");
    ("Arun", "OD"); ("Abhishek", "OD"); ("Bodhis", "OD"); ("Mahesh", "OD");
    ("MD FAZLE MURSHED", "OD");
    ("Rahul", "B+R"); ("Harsh", "B+R"); ("Vikash", "B+R"); ("Nagender", "B+R");
    ("Sunny", "JSR");
    ("Priyanka Auddy", "JSR") ]%string.

Definition DEFAULT_CLUSTER : string := "OD"%string.

(* ================================================================== *)
(** * Classifiers *)
(* ================================================================== *)

(** The [for map_key, cluster in ...items()] loop over a mapping [m]: the
    cluster of the first key that occurs in the name. *)
Fixpoint scan_map (m : list (string * string)) (name : string) : option string :=
  match m with
  | [] => None
  | (map_key, cluster) :: rest =>
      if PyStr.contains map_key name then Some cluster else scan_map rest name
  end.

Definition get_cluster (employee_name_from_file : pyobj) : string :=
  match employee_name_from_file with
  | PStr s =>
      match scan_map EMPLOYEE_CLUSTER_MAP s with
      | Some cluster => cluster
      | None => DEFAULT_CLUSTER
      end
  | _ => DEFAULT_CLUSTER
  end.

Definition get_bu_from_helios (helios_code : pyobj) : string :=
  match helios_code with
  | PStr s =>
      if PyStr.startswith s "PP" then "PP"
      else if PyStr.startswith s "HD" then "H&D"
      else if PyStr.startswith s "ID" then "IND"
      else if PyStr.startswith s "SP" || PyStr.startswith s "PS" then "SP"
      else if PyStr.startswith s "DP" || PyStr.startswith s "DE" then "DE"
      else "Other"
  | _ => "Other"
  end%string.

(* ================================================================== *)
(** * The pandas operations the route relies on *)
(* ================================================================== *)

Section Frames.

Variable K : Type.
Variable eqb : K -> K -> bool.
Variable leb : K -> K -> bool.

(** Distinct keys in order of first appearance ([factorize], [unique]). *)
Fixpoint unique (l : list K) : list K :=
  match l with
  | [] => []
  | x :: t => x :: filter (fun y => negb (eqb y x)) (unique t)
  end.

Fixpoint insert_sorted (k : K) (l : list K) : list K :=
  match l with
  | [] => [k]
  | x :: t => if leb k x then k :: l else x :: insert_sorted k t
  end.

Definition sort_keys (l : list K) : list K := fold_right insert_sorted [] l.

Variable A : Type.

(** The rows of a keyed frame whose key is [k], in frame order. *)
Definition rows_of (k : K) (f : list (K * A)) : list (K * A) :=
  filter (fun r => eqb (fst r) k) f.

(** [groupby(key, sort=False)]: one group per distinct key, in order of
    first appearance, each holding its rows in frame order. *)
Definition groupby_nosort (keyof : A -> K) (f : list A) : list (K * list A) :=
  map (fun k => (k, filter (fun r => eqb (keyof r) k) f))
      (unique (map keyof f)).

End Frames.

Section Reconcile.

Variable K : Type.
Variable eqb : K -> K -> bool.
Variable leb : K -> K -> bool.

(** [groupby(keys)[col].sum()] with the default [sort=True]: one row per
    distinct key, keys ascending, the measure summed with NaN skipped.
    Rows with a null key are removed by the caller ([dropna=True]). *)
Definition groupby_sum (f : list (K * num)) : list (K * Qc) :=
  map (fun k => (k, sum_skipna (map snd (rows_of eqb k f))))
      (sort_keys leb (unique eqb (map fst f))).

(** [pd.merge(left, right, on=keys, how="outer")], as pandas documents the
    outer join: the union of the keys of both frames, with the keys sorted
    lexicographically; a key found on both sides gives the product of its
    rows, a key found on one side gives that side's rows with NaN for the
    other. *)
Definition merge_outer (left right : list (K * Qc)) : list (K * (num * num)) :=
  flat_map
    (fun k =>
       match map snd (rows_of eqb k left), map snd (rows_of eqb k right) with
       | [], rs => map (fun r => (k, (NaN, Fin r))) rs
       | ls, [] => map (fun l => (k, (Fin l, NaN))) ls
       | ls, rs => flat_map (fun l => map (fun r => (k, (Fin l, Fin r))) rs) ls
       end)
    (sort_keys leb (unique eqb (map fst left ++ map fst right))).

End Reconcile.

(** ** Keys: (Cluster, Employee Responsible) *)

Definition key : Type := (string * pyobj)%type.

Definition key_eqb (a b : key) : bool :=
  String.eqb (fst a) (fst b) && pyobj_eqb (snd a) (snd b).

(** Order of an object column when it is sorted: numbers come before
    strings, strings compare by code point. *)
Definition pyobj_leb (a b : pyobj) : bool :=
  match a, b with
  | PNum p, PNum q => Qle_bool p q
  | PNum _, _ => true
  | PStr _, PNum _ => false
  | PStr s, PStr t => String.leb s t
  | PStr _, PNull => true
  | PNull, PNull => true
  | PNull, _ => false
  end.

(** Lexicographic order on the two key columns. *)
Definition key_leb (a b : key) : bool :=
  match String.compare (fst a) (fst b) with
  | Lt => true
  | Gt => false
  | Eq => pyobj_leb (snd a) (snd b)
  end.

(** ** Python dicts, in insertion order *)

Definition dict : Type := list (pyobj * num).

(** [d.get(k, default)]. *)
Fixpoint dict_get (d : dict) (k : pyobj) (default : num) : num :=
  match d with
  | [] => default
  | (k', v) :: t => if pyobj_eqb k' k then v else dict_get t k default
  end.

Definition dict_has (d : dict) (k : pyobj) : bool :=
  existsb (fun kv => pyobj_eqb (fst kv) k) d.

(** [d[k] = v]: a present key keeps its place, a new key goes last. *)
Fixpoint dict_set (d : dict) (k : pyobj) (v : num) : dict :=
  match d with
  | [] => [(k, v)]
  | (k', v') :: t =>
      if pyobj_eqb k' k then (k', v) :: t else (k', v') :: dict_set t k v
  end.

(** [df.set_index(name)["Target"].fillna(0).to_dict()] on a targets sheet,
    given as its rows (index cell, Target cell after
    [pd.to_numeric(errors="coerce")]). *)
Definition to_dict (sheet : list (pyobj * num)) : dict :=
  fold_left (fun d kv => dict_set d (fst kv) (fillna0 (snd kv))) sheet [].

(** [Series.map(d)] on one cell: a key missing from the dict maps to NaN. *)
Definition map_dict (d : dict) (k : pyobj) : num := dict_get d k NaN.

(* ================================================================== *)
(** * Sheets and emitted rows *)
(* ================================================================== *)

(** One data row of the sales or OB sheet, through the three columns the
    route reads.  A field whose column is absent from the header is never
    read: the route stops before. *)
Record record : Type := {
  Employee_Responsible : pyobj;
  Helios_Code : pyobj;
  MINR_2025 : num
}.

(** A sheet as [read_excel] returns it: its header and its data rows. *)
Record sheet : Type := {
  columns : list string;
  body : list record
}.

(** A row of [merged]. *)
Record mrow : Type := {
  m_Cluster : string;
  m_Employee_Responsible : pyobj;
  MINR_2025_ob : num;
  MINR_2025_sales : num
}.

(** A row of [rows]: a cluster subtotal or an employee row.  [Name] is the
    entry under "Employee Responsible": the "<cluster> Total" marker of a
    subtotal row, the employee of an employee row (which [emp_rows] also
    keeps under "Name"). *)
Record row : Type := {
  Cluster : string;
  Name : pyobj;
  OB_Total_mn : num;
  OB_Remaining : pyval;
  OB_Achiev_pct : pyval;
  Sales_Total_mn : num;
  Sales_Remaining : pyval;
  Sales_Achiev_pct : pyval;
  Target : pyval
}.

(** A row of [bu_performance_rows]. *)
Record bu_row : Type := {
  BU : pyobj;
  OB_mn : num;
  OB_Remaining_mn : num;
  ACH_OB_pct : string;
  Sales_mn : num;
  Sales_Remaining_mn : num;
  ACH_Sales_pct : string;
  Target_mn : num
}.

(* ================================================================== *)
(** * Pivot-2: grouping, merge and the per-cluster loop *)
(* ================================================================== *)

(** [df['Cluster'] = df['Employee Responsible'].apply(get_cluster)]. *)
Definition add_cluster (df : list record) : list (string * record) :=
  map (fun r => (get_cluster (Employee_Responsible r), r)) df.

(** [df.groupby(["Cluster", "Employee Responsible"])[col].sum().reset_index()]. *)
Definition grp (df : list (string * record)) : list (key * Qc) :=
  groupby_sum key_eqb key_leb
    (map (fun cr => ((fst cr, Employee_Responsible (snd cr)), MINR_2025 (snd cr)))
         (filter (fun cr => negb (isnull (Employee_Responsible (snd cr)))) df)).

Definition fillna0_obj (a : pyobj) : pyobj :=
  match a with PNull => PNum (Q2Qc 0) | _ => a end.

(** [pd.merge(grp_ob, grp_sales, on=[...], how="outer", ...).fillna(0)]. *)
Definition merged (grp_ob grp_sales : list (key * Qc)) : list mrow :=
  map (fun r =>
         {| m_Cluster := fst (fst r);
            m_Employee_Responsible := fillna0_obj (snd (fst r));
            MINR_2025_ob := fillna0 (fst (snd r));
            MINR_2025_sales := fillna0 (snd (snd r)) |})
      (merge_outer key_eqb key_leb grp_ob grp_sales).

(** [emp_targets.get(clust, sub["Employee Responsible"].map(emp_targets).sum(min_count=1))]. *)
Definition cl_target (emp_targets : dict) (clust : string) (sub : list mrow) : num :=
  dict_get emp_targets (PStr clust)
    (sum_min_count1 (map (fun r => map_dict emp_targets (m_Employee_Responsible r)) sub)).

(** [f(x) if x is not None else None]. *)
Definition if_not_None (x : pyval) (f : num -> num) : pyval :=
  match x with
  | PyFloat t => PyFloat (f t)
  | PyNone => PyNone
  end.

(** [f(x) if x else None]: [None] and 0 are false, any other float is true. *)
Definition if_truthy (x : pyval) (f : num -> num) : pyval :=
  match x with
  | PyFloat t => if truthy t then PyFloat (f t) else PyNone
  | PyNone => PyNone
  end.

Definition hundred : num := of_Z 100.

(** The subtotal row built at the head of the loop body. *)
Definition subtotal_row (emp_targets : dict) (clust : string) (sub : list mrow) : row :=
  let subtotal_ob := Fin (sum_skipna (map MINR_2025_ob sub)) in
  let subtotal_sales := Fin (sum_skipna (map MINR_2025_sales sub)) in
  let total_ob_mn := round (div subtotal_ob EMP_SCALE) EMP_DEC in
  let total_sales_mn := round (div subtotal_sales EMP_SCALE) EMP_DEC in
  let cl_target0 := PyFloat (cl_target emp_targets clust sub) in
  let cl_target1 := if_not_None cl_target0 (fun t => round t EMP_DEC) in
  let cl_target_mn := if_not_None cl_target1 (fun t => round (div t EMP_SCALE) EMP_DEC) in
  let remaining_ob_mn :=
    if_not_None cl_target_mn (fun t => round (Num.sub t total_ob_mn) EMP_DEC) in
  let remaining_sales_mn :=
    if_not_None cl_target_mn (fun t => round (Num.sub t total_sales_mn) EMP_DEC) in
  let achv_ob_pct :=
    if_truthy cl_target_mn (fun t => round (mul (div total_ob_mn t) hundred) 2) in
  let achv_sales_pct :=
    if_truthy cl_target_mn (fun t => round (mul (div total_sales_mn t) hundred) 2) in
  {| Cluster := clust;
     Name := PStr (clust ++ " Total");
     OB_Total_mn := total_ob_mn;
     OB_Remaining := remaining_ob_mn;
     OB_Achiev_pct := achv_ob_pct;
     Sales_Total_mn := total_sales_mn;
     Sales_Remaining := remaining_sales_mn;
     Sales_Achiev_pct := achv_sales_pct;
     Target := cl_target_mn |}.

(** The employee row built for one row [r] of [sub]. *)
Definition emp_row (emp_targets : dict) (clust : string) (r : mrow) : row :=
  let name := m_Employee_Responsible r in
  let tgt := dict_get emp_targets name zero in
  let tgt_mn := if gt0 tgt then round (div tgt EMP_SCALE) EMP_DEC else zero in
  let ob_total := round (div (MINR_2025_ob r) EMP_SCALE) EMP_DEC in
  let sales_total := round (div (MINR_2025_sales r) EMP_SCALE) EMP_DEC in
  let ob_rem := if gt0 tgt_mn then round (Num.sub tgt_mn ob_total) EMP_DEC else zero in
  let sales_rem := if gt0 tgt_mn then round (Num.sub tgt_mn sales_total) EMP_DEC else zero in
  let ob_ach := if gt0 tgt_mn then round (mul (div ob_total tgt_mn) hundred) 2 else zero in
  let sales_ach :=
    if gt0 tgt_mn then round (mul (div sales_total tgt_mn) hundred) 2 else zero in
  {| Cluster := clust;
     Name := name;
     OB_Total_mn := ob_total;
     OB_Remaining := PyFloat ob_rem;
     OB_Achiev_pct := PyFloat ob_ach;
     Sales_Total_mn := sales_total;
     Sales_Remaining := PyFloat sales_rem;
     Sales_Achiev_pct := PyFloat sales_ach;
     Target := PyFloat tgt_mn |}.

(** One pass of [for clust, sub in merged.groupby("Cluster", sort=False)]:
    the subtotal row, then the employee rows of [sub.iterrows()]. *)
Definition cluster_block (emp_targets : dict) (g : string * list mrow)
  : row * list row :=
  (subtotal_row emp_targets (fst g) (snd g),
   map (emp_row emp_targets (fst g)) (snd g)).

Definition blocks (emp_targets : dict) (m : list mrow) : list (row * list row) :=
  map (cluster_block emp_targets) (groupby_nosort String.eqb m_Cluster m).

(** The three lists the loop fills. *)
Definition rows_of_blocks (bs : list (row * list row)) : list row :=
  flat_map (fun b => fst b :: snd b) bs.

Definition cluster_rows_of_blocks (bs : list (row * list row)) : list row :=
  map fst bs.

Definition emp_rows_of_blocks (bs : list (row * list row)) : list row :=
  flat_map snd bs.

(** [merged] as the route computes it from the two classified frames. *)
Definition reconcile (df_sales df_ob : list record) : list mrow :=
  merged (grp (add_cluster df_ob)) (grp (add_cluster df_sales)).

Definition pivot2 (df_sales df_ob : list record) (emp_targets : dict)
  : list (row * list row) :=
  blocks emp_targets (reconcile df_sales df_ob).

(* ================================================================== *)
(** * BU-wise performance table *)
(* ================================================================== *)

(** [df.groupby("BU", as_index=False)[col].sum()] after
    [df["BU"] = df["Helios Code"].apply(get_bu_from_helios)]. *)
Definition bu_grp (df : list record) : list (string * Qc) :=
  groupby_sum String.eqb String.leb
    (map (fun r => (get_bu_from_helios (Helios_Code r), MINR_2025 r)) df).

(** [frame[frame["BU"] == bu_name][col].iloc[0]] when that selection is
    not empty, else 0. *)
Definition bu_value (frame : list (string * Qc)) (bu_name : pyobj) : num :=
  match filter (fun r => pyobj_eqb (PStr (fst r)) bu_name) frame with
  | [] => zero
  | r :: _ => Fin (snd r)
  end.

(** [f"{round(v / bu_target * 100, 2)}%" if bu_target else "0.00%"]. *)
Definition ach_pct (v bu_target : num) : string :=
  if truthy bu_target
  then (PyStr.str_float2 (round (mul (div v bu_target) hundred) 2) ++ "%")%string
  else "0.00%"%string.

Definition bu_performance_row (bu_sales_df bu_ob_df : list (string * Qc))
  (item : pyobj * num) : bu_row :=
  let bu_name := fst item in
  let bu_target := snd item in
  let sales := bu_value bu_sales_df bu_name in
  let ob := bu_value bu_ob_df bu_name in
  let remaining_sales := Num.sub bu_target sales in
  let remaining_ob := Num.sub bu_target ob in
  let ach_sales := ach_pct sales bu_target in
  let ach_ob := ach_pct ob bu_target in
  let sales_mn := round (div sales EMP_SCALE) EMP_DEC in
  let ob_mn := round (div ob EMP_SCALE) EMP_DEC in
  let bu_target_mn := round (div bu_target EMP_SCALE) EMP_DEC in
  let remaining_sales_mn := round (div remaining_sales EMP_SCALE) EMP_DEC in
  let remaining_ob_mn := round (div remaining_ob EMP_SCALE) EMP_DEC in
  {| BU := bu_name;
     OB_mn := ob_mn;
     OB_Remaining_mn := remaining_ob_mn;
     ACH_OB_pct := ach_ob;
     Sales_mn := sales_mn;
     Sales_Remaining_mn := remaining_sales_mn;
     ACH_Sales_pct := ach_sales;
     Target_mn := bu_target_mn |}.

(** [for bu_name, bu_target in bu_targets.items()]. *)
Definition bu_performance_rows (df_sales df_ob : list record) (bu_targets : dict)
  : list bu_row :=
  map (bu_performance_row (bu_grp df_sales) (bu_grp df_ob)) bu_targets.

(* ================================================================== *)
(** * The [/upload] route, from the parsed sheets on *)
(* ================================================================== *)

(** The exceptions that leave the view function: [KeyError] on one
    label, [KeyError] on a list of labels, and [ValueError]. *)
Inductive exception : Type :=
| KeyError (key : string)
| KeyError_labels (keys : list string)
| ValueError.

(** How a request ends: the page is rendered from the computed tables, the
    route returns a message with status 400, or an exception leaves the
    view function. *)
Inductive outcome (A : Type) : Type :=
| Rendered (a : A)
| Reply400 (msg : string)
| Uncaught (e : exception).

Arguments Rendered {A} a.
Arguments Reply400 {A} msg.
Arguments Uncaught {A} e.

Definition bind {A B : Type} (m : outcome A) (f : A -> outcome B) : outcome B :=
  match m with
  | Rendered a => f a
  | Reply400 msg => Reply400 msg
  | Uncaught e => Uncaught e
  end.

Notation "x <- m ;; k" := (bind m (fun x => k))
  (at level 61, m at next level, right associativity).

(** [if cond: return msg, 400]. *)
Definition reply_if (cond : bool) (msg : string) : outcome unit :=
  if cond then Reply400 msg else Rendered tt.

(** A statement that raises [e] when [cond] holds. *)
Definition raise_if (cond : bool) (e : exception) : outcome unit :=
  if cond then Uncaught e else Rendered tt.

(** A sheet after the first loop: stripped header with [Cluster] set, and
    each data row with its cluster. *)
Record classified : Type := {
  c_columns : list string;
  c_body : list (string * record)
}.

(** [df[name] = ...] on the header: a new column goes last. *)
Definition set_column (cols : list string) (name : string) : list string :=
  if PyStr.mem name cols then cols else cols ++ [name].

(** The number of labels of a header equal to [c]. *)
Definition count (c : string) (cols : list string) : nat :=
  List.length (filter (String.eqb c) cols).

(** The body of [for df in [df_sales, df_ob]].  [df['Employee Responsible']]
    raises [KeyError] when the header has no such label.  When two labels
    are equal to it once stripped, the selection is a frame and not a
    column, [apply] returns one value per selected column, labelled alike,
    and the assignment to [df['Cluster']] raises [ValueError]. *)
Definition classify_frame (df : sheet) : outcome classified :=
  let cols := map PyStr.strip (columns df) in
  if PyStr.mem "Employee Responsible" cols
  then if Nat.leb 2 (count "Employee Responsible" cols)
       then Uncaught ValueError
       else Rendered {| c_columns := set_column cols "Cluster";
                        c_body := add_cluster (body df) |}
  else Uncaught (KeyError "Employee Responsible").

Definition not_in (cols : list string) (c : string) : bool :=
  negb (PyStr.mem c cols).

Definition nonempty {A : Type} (l : list A) : bool :=
  match l with [] => false | _ => true end.

Record tables : Type := {
  t_rows : list row;
  t_cluster_rows : list row;
  t_emp_rows : list row;
  t_bu_performance_rows : list bu_row
}.

(** The route from the parsed sheets on.  After the header checks the
    tables are computed; the sixth chart reads
    [pd.DataFrame(emp_rows).dropna(subset=["Target"])], and a frame built
    from an empty list has no [Target] column, so [dropna] raises
    [KeyError(['Target'])] when the loop produced no employee row. *)
Definition upload (df_sales df_ob : sheet)
  (emp_targets_df bu_targets_df : list (pyobj * num)) : outcome tables :=
  let emp_targets := to_dict emp_targets_df in
  let bu_targets := to_dict bu_targets_df in
  sales <- classify_frame df_sales ;;
  ob <- classify_frame df_ob ;;
  let missing := filter (not_in (c_columns sales)) ID_COLS in
  _ <- reply_if (nonempty missing)
         ("⚠️ Missing column(s) in sales: " ++ PyStr.join ", " missing) ;;
  let missing_ob := filter (not_in (c_columns ob)) ID_COLS in
  _ <- reply_if (nonempty missing_ob)
         ("⚠️ Missing column(s) in OB: " ++ PyStr.join ", " missing_ob) ;;
  _ <- reply_if (not_in (c_columns sales) "MINR-2025")
         "⚠️ Column 'MINR-2025' not found in the sales sheet." ;;
  _ <- reply_if (not_in (c_columns ob) "MINR-2025")
         "⚠️ Column 'MINR-2025' not found in the OB sheet." ;;
  let bs := blocks emp_targets (merged (grp (c_body ob)) (grp (c_body sales))) in
  _ <- raise_if (negb (nonempty (emp_rows_of_blocks bs)))
         (KeyError_labels ["Target"%string]) ;;
  Rendered {| t_rows := rows_of_blocks bs;
              t_cluster_rows := cluster_rows_of_blocks bs;
              t_emp_rows := emp_rows_of_blocks bs;
              t_bu_performance_rows :=
                bu_performance_rows (body df_sales) (body df_ob) bu_targets |}.

(* ================================================================== *)
(** * Styling of Pivot-2, Pivot-1 and the template generator *)
(* ================================================================== *)

(** [is_subtotal] of [highlight_subtotal_row]:
    ['Total' in str(row['Employee Responsible'])].  The text of a number
    or of a missing value holds no letter T, so only a string can match. *)
Definition highlight_subtotal_row (r : row) : bool :=
  match Name r with
  | PStr s => PyStr.contains "Total" s
  | PNum _ | PNull => false
  end.

(** The rows [pivot_table] aggregates: those of the classified sales frame
    whose three keys (Helios Code, Cluster, Employee Responsible) are all
    present, each under its Helios code and its (cluster, employee) pair. *)
Definition pivot1_frame (df : list (string * record))
  : list ((pyobj * key) * num) :=
  map (fun cr => ((Helios_Code (snd cr), (fst cr, Employee_Responsible (snd cr))),
                  MINR_2025 (snd cr)))
      (filter (fun cr => negb (isnull (Helios_Code (snd cr)))
                         && negb (isnull (Employee_Responsible (snd cr))))
              df).

(** The index (Helios codes) and the columns ((cluster, employee) pairs) of
    the pivot table, both sorted. *)
Definition pivot1_index (df : list (string * record)) : list pyobj :=
  sort_keys pyobj_leb (unique pyobj_eqb (map (fun r => fst (fst r)) (pivot1_frame df))).

Definition pivot1_columns (df : list (string * record)) : list key :=
  sort_keys key_leb (unique key_eqb (map (fun r => snd (fst r)) (pivot1_frame df))).

(** One cell: the sum of the measure over the rows of that code and pair,
    and [fill_value=0] where there is no such row. *)
Definition pivot1_cell (df : list (string * record)) (code : pyobj) (k : key)
  : num :=
  match filter (fun r => pyobj_eqb (fst (fst r)) code && key_eqb (snd (fst r)) k)
               (pivot1_frame df) with
  | [] => zero
  | rs => Fin (sum_skipna (map snd rs))
  end.

(** [df_sales.pivot_table(index="Helios Code", columns=[...], values=...,
    aggfunc="sum", fill_value=0)]: one line per code, one cell per column.
    A column is kept as its (cluster, employee) pair; the text
    "<cluster> | <employee>" it is shown under is not modelled. *)
Definition pivot_table (df : list (string * record)) : list (pyobj * list num) :=
  map (fun code => (code, map (pivot1_cell df code) (pivot1_columns df)))
      (pivot1_index df).

(** The column at position [i] of a table body. *)
Definition column_at (i : nat) (table : list (pyobj * list num)) : list num :=
  map (fun line => nth i (snd line) NaN) table.

(** [pivot1.sum(numeric_only=True)]: the sum of each column, NaN skipped. *)
Definition total_row (ncols : nat) (table : list (pyobj * list num)) : list num :=
  map (fun i => Fin (sum_skipna (column_at i table))) (seq 0 ncols).

(** [pd.concat([pivot1, total_row])] with [total_row.index = ["Total"]]. *)
Definition pivot1 (df : list (string * record)) : list (pyobj * list num) :=
  let t := pivot_table df in
  t ++ [(PStr "Total", total_row (List.length (pivot1_columns df)) t)].

(** What the template route sends back or raises. *)
Inductive template_reply : Type :=
| Workbook (employee_targets bu_targets : list (pyobj * pyval))
| TemplateKeyError (key : string)
| TemplateTypeError.

Definition is_str (a : pyobj) : bool :=
  match a with PStr _ => true | _ => false end.

Definition is_num (a : pyobj) : bool :=
  match a with PNum _ => true | _ => false end.

(** [sorted(l)] on distinct cell values: strings sort by code point and
    numbers by value; comparing a string with a number raises [TypeError],
    which a list holding both cannot avoid. *)
Definition py_sorted (l : list pyobj) : option (list pyobj) :=
  if forallb is_str l || forallb is_num l
  then Some (sort_keys pyobj_leb l)
  else None.

(** The BU names written to the "BU Targets" sheet. *)
Definition TEMPLATE_BUS : list string :=
  ["PP"; "H&D"; "IND"; "SP"; "PS"; "DE"]%string.

(** [generate_target_template], from the parsed sheet on: the sorted
    distinct employees with an empty Target each, and the fixed BU list. *)
Definition generate_target_template (df : sheet) : template_reply :=
  let cols := map PyStr.strip (columns df) in
  if PyStr.mem "Employee Responsible" cols
  then
    match py_sorted
            (unique pyobj_eqb
               (filter (fun e => negb (isnull e))
                       (map Employee_Responsible (body df)))) with
    | Some employees =>
        Workbook (map (fun e => (e, PyNone)) employees)
                 (map (fun b => (PStr b, PyNone)) TEMPLATE_BUS)
    | None => TemplateTypeError
    end
  else TemplateKeyError "Employee Responsible".

(** A targets sheet as the route reads it back: an empty Target cell is
    NaN after [pd.to_numeric(errors="coerce")]. *)
Definition read_targets (sheet : list (pyobj * pyval)) : list (pyobj * num) :=
  map (fun kv => (fst kv, match snd kv with PyNone => NaN | PyFloat x => x end))
      sheet.

(* ================================================================== *)
(** * Vocabulary of the statements *)
(* ================================================================== *)

(** [p] occurs in [s]: some text, then [p], then some text. *)
Definition occurs (p s : string) : Prop :=
  exists a b, s = (a ++ p ++ b)%string.

(** No pattern of the entries [m] occurs in [s]. *)
Definition none_occurs (m : list (string * string)) (s : string) : Prop :=
  Forall (fun pc => ~ occurs (fst pc) s) m.

(** The value a keyed frame holds under [k], when it has one. *)
Definition lookup (K : Type) (eqb : K -> K -> bool) (k : K) (f : list (K * Qc))
  : option Qc :=
  match rows_of eqb k f with
  | [] => None
  | r :: _ => Some (snd r)
  end.

(** A missing value of a merge reads as NaN. *)
Definition opt_num (o : option Qc) : num :=
  match o with Some v => Fin v | None => NaN end.

(** The (Cluster, Employee Responsible) pair of a sheet row and of a row of
    [merged]. *)
Definition key_of (r : record) : key :=
  (get_cluster (Employee_Responsible r), Employee_Responsible r).

Definition mkey (m : mrow) : key :=
  (m_Cluster m, m_Employee_Responsible m).

(** The rows of a sheet that fall under the pair [k], and the total of the
    measure over them: 0 when the pair is absent from the sheet. *)
Definition source_rows (df : list record) (k : key) : list record :=
  filter (fun r => key_eqb (key_of r) k) df.

Definition source_total (df : list record) (k : key) : num :=
  match source_rows df k with
  | [] => zero
  | rs => Fin (sum_skipna (map MINR_2025 rs))
  end.

(** The keyed frame [grp] sums: the rows of a sheet with a non-null
    employee, each under its pair. *)
Definition grp_frame (df : list record) : list (key * num) :=
  map (fun cr => ((fst cr, Employee_Responsible (snd cr)), MINR_2025 (snd cr)))
      (filter (fun cr => negb (isnull (Employee_Responsible (snd cr))))
              (add_cluster df)).

(** The pairs the outer merge runs over: the sorted union of both sides. *)
Definition merged_keys (df_sales df_ob : list record) : list key :=
  sort_keys key_leb
    (unique key_eqb (map fst (grp (add_cluster df_ob))
                     ++ map fst (grp (add_cluster df_sales)))).

(** The cluster labels of the loop's passes, in iteration order. *)
Definition cluster_order (bs : list (row * list row)) : list string :=
  map (fun b => Cluster (fst b)) bs.

(** The clusters of the input rows, in order of first appearance. *)
Definition first_appearance (df : list record) : list string :=
  unique String.eqb (map (fun r => get_cluster (Employee_Responsible r)) df).

(** Code-point order on labels. *)
Definition label_le (a b : string) : Prop := String.leb a b = true.
Definition label_lt (a b : string) : Prop := String.ltb a b = true.

(** Sample sheet rows. *)
Definition sample (emp code : string) (value : Q) : record :=
  {| Employee_Responsible := PStr emp;
     Helios_Code := PStr code;
     MINR_2025 := Fin (Q2Qc value) |}.

(** A well-formed header for the sales and OB sheets. *)
Definition full_header : list string :=
  ["Employee Responsible"; "Helios Code"; "MINR-2025"]%string.

(** The employees of a cluster's rows of [merged]. *)
Definition members (sub : list mrow) : list pyobj :=
  map m_Employee_Responsible sub.

(** [emp_targets.get(name, 0)], the employee-level lookup. *)
Definition resolve_employee_target (emp_targets : dict) (name : pyobj) : num :=
  dict_get emp_targets name zero.

(** The sum of a list of numbers. *)
Definition total (l : list num) : num := fold_right Num.add zero l.

(** The cluster target as the specification words it: the cluster's own
    entry when the label is a key of the table, else the sum of the
    employee-level lookups of the members. *)
Definition resolve_cluster_target_spec (emp_targets : dict) (clust : string)
  (names : list pyobj) : num :=
  if dict_has emp_targets (PStr clust)
  then dict_get emp_targets (PStr clust) zero
  else total (map (resolve_employee_target emp_targets) names).

(** Every value of the dict is a number, not NaN. *)
Definition fin_valued (d : dict) : Prop :=
  Forall (fun kv => is_nan (snd kv) = false) d.

(** The groups the loop iterates over. *)
Definition cluster_groups (df_sales df_ob : list record) : list (string * list mrow) :=
  groupby_nosort String.eqb m_Cluster (reconcile df_sales df_ob).

(** A whole number of hundredths: a value that rounding to two decimals
    leaves unchanged. *)
Definition cents (k : Z) : num := Fin (Q2Qc (Qmake k 100)).

Definition is_cents (x : num) : Prop := exists k : Z, x = cents k.

(** The cell holds a string that begins with [p]. *)
Definition starts_with (x : pyobj) (p : string) : Prop :=
  exists rest, x = PStr (p ++ rest).

(** The cluster labels the mapping and the default can give. *)
Definition CLUSTERS : list string := ["CG"; "OD"; "B+R"; "JSR"]%string.

(** The stripped header of a sheet has the column. *)
Definition has_column (df : sheet) (c : string) : bool :=
  PyStr.mem c (map PyStr.strip (columns df)).

(** The (cluster, employee) pair an emitted row stands for. *)
Definition row_key (r : row) : key := (Cluster r, Name r).

(** The Target cell of the last row of a targets sheet whose index cell is
    [k], if there is such a row. *)
Fixpoint last_value (k : pyobj) (sheet : list (pyobj * num)) : option num :=
  match sheet with
  | [] => None
  | kv :: rest =>
      match last_value k rest with
      | Some v => Some v
      | None => if pyobj_eqb (fst kv) k then Some (snd kv) else None
      end
  end.

(** The sum of a list of rationals. *)
Definition qsum (l : list Qc) : Qc := fold_right Qcplus (Q2Qc 0) l.

(** The labels [get_bu_from_helios] can give. *)
Definition BUS : list string := ["PP"; "H&D"; "IND"; "SP"; "DE"; "Other"]%string.

(** The rows of a sheet whose employee cell is not missing. *)
Definition named_rows (df : list record) : list record :=
  filter (fun r => negb (isnull (Employee_Responsible r))) df.

(** The rows of a sheet under the pair [k] that carry a Helios code. *)
Definition coded_rows (df : list record) (k : key) : list record :=
  filter (fun r => negb (isnull (Helios_Code r))) (source_rows df k).

(** No two labels of the list are equal. *)
Fixpoint distinct (l : list string) : bool :=
  match l with
  | [] => true
  | x :: t => negb (PyStr.mem x t) && distinct t
  end.

(** A sheet whose header holds no two labels that are equal once stripped:
    each column the route asks for by name is then a single column. *)
Definition distinct_columns (df : sheet) : bool :=
  distinct (map PyStr.strip (columns df)).

(** A whole number; a missing value passes, since the sums skip it. *)
Definition is_whole (x : num) : bool :=
  match x with
  | NaN => true
  | Fin q => Pos.eqb (Qden q) 1
  end.

(** The size of a whole number; a missing value counts for nothing. *)
Definition magnitude (x : num) : Z :=
  match x with
  | NaN => 0%Z
  | Fin q => Z.abs (Qnum q)
  end.

(** A column of whole numbers whose sizes add up to at most 2^46.  Every
    sum over part of such a column, and a hundred times it, is an integer
    below 2^53: the 64-bit integers and the binary64 floats of the program
    hold these values exactly, so on such columns the exact arithmetic of
    [Num] and the arithmetic of the program give the same numbers, and
    rounding to two decimals changes nothing. *)
Definition whole_amounts (l : list num) : bool :=
  forallb is_whole l
  && (fold_right (fun x a => magnitude x + a) 0 l <=? 2 ^ 46)%Z.

(** The rows of a sheet that [get_bu_from_helios] files under [bu_name]. *)
Definition bu_rows (bu_name : pyobj) (df : list record) : list record :=
  filter (fun r => pyobj_eqb (PStr (get_bu_from_helios (Helios_Code r))) bu_name) df.

(** The rows of a sheet whose BU is named in the BU column of the
    BU-targets sheet. *)
Definition with_bu_target (bu_targets_df : list (pyobj * num)) (df : list record)
  : list record :=
  filter (fun r => existsb (pyobj_eqb (PStr (get_bu_from_helios (Helios_Code r))))
                           (map fst bu_targets_df)) df.

(* ================================================================== *)
(** * Classifier: proofs *)
(* ================================================================== *)

Lemma prefix_iff (p s : string) :
  String.prefix p s = true <-> exists b, s = (p ++ b)%string.
Proof.
  revert s; induction p as [|a p IH]; intros s; simpl.
  - destruct s; simpl; split; intros _; eauto.
  - destruct s as [|b s]; simpl.
    + split; [discriminate | intros [t Ht]; discriminate].
    + destruct (ascii_dec a b) as [->|Hab].
      * rewrite IH. split; intros [t Ht]; exists t; congruence.
      * split; [discriminate | intros [t Ht]; congruence].
Qed.

Lemma contains_unfold (p s : string) :
  PyStr.contains p s =
  String.prefix p s
  || match s with
     | EmptyString => false
     | String _ t => PyStr.contains p t
     end.
Proof. destruct s; reflexivity. Qed.

Lemma contains_iff (p s : string) :
  PyStr.contains p s = true <-> occurs p s.
Proof.
  unfold occurs.
  induction s as [|c s IH]; rewrite contains_unfold, orb_true_iff, prefix_iff.
  - split.
    + intros [[b Hb]|Hf]; [exists EmptyString, b; exact Hb | discriminate].
    + intros (a & b & Hab). left.
      destruct a; simpl in Hab; [eauto | discriminate].
  - rewrite IH. split.
    + intros [[b Hb]|(a & b & Hab)].
      * exists EmptyString, b; exact Hb.
      * exists (String c a), b; simpl; congruence.
    + intros (a & b & Hab). destruct a as [|c' a]; simpl in Hab.
      * left; eauto.
      * right. exists a, b. congruence.
Qed.

Lemma scan_map_spec (m : list (string * string)) (s : string) :
  match scan_map m s with
  | Some c =>
      exists before p after,
        m = before ++ (p, c) :: after /\ occurs p s /\ none_occurs before s
  | None => none_occurs m s
  end.
Proof.
  induction m as [|[p c] m IH]; simpl.
  - constructor.
  - destruct (PyStr.contains p s) eqn:Hp.
    + exists [], p, m. repeat split; [now apply contains_iff | constructor].
    + assert (Hn : ~ occurs p s)
        by (rewrite <- contains_iff, Hp; discriminate).
      destruct (scan_map m s) as [c'|].
      * destruct IH as (before & p' & after & -> & Ho & Hb).
        exists ((p, c) :: before), p', after.
        repeat split; [exact Ho | constructor; [exact Hn | exact Hb]].
      * constructor; [exact Hn | exact IH].
Qed.

(** C8.  [get_cluster] is a total function of its argument.  On a string
    it returns the cluster of the first entry of [EMPLOYEE_CLUSTER_MAP],
    in insertion order, whose key occurs in the name (every earlier key
    does not occur), and [DEFAULT_CLUSTER] when no key occurs; on any
    other value it returns [DEFAULT_CLUSTER].  The match is case-sensitive
    and first-match, not longest-match: "sunny" is unmatched, and
    "Rahul Arun" goes to the cluster of "Arun", the earlier and shorter key. *)
Theorem get_cluster_first_match :
  (forall x : pyobj,
     match x with
     | PStr s =>
         (exists before p after,
             EMPLOYEE_CLUSTER_MAP = before ++ (p, get_cluster x) :: after /\
             occurs p s /\ none_occurs before s)
         \/ (none_occurs EMPLOYEE_CLUSTER_MAP s /\ get_cluster x = DEFAULT_CLUSTER)
     | PNum _ | PNull => get_cluster x = DEFAULT_CLUSTER
     end)
  /\ get_cluster (PStr "Sunny") = "JSR"%string
  /\ get_cluster (PStr "sunny") = DEFAULT_CLUSTER
  /\ get_cluster (PStr "Rahul Arun") = "OD"%string.
Proof.
  split; [|repeat split].
  intros [s| |]; try reflexivity.
  unfold get_cluster.
  pose proof (scan_map_spec EMPLOYEE_CLUSTER_MAP s) as H.
  destruct (scan_map EMPLOYEE_CLUSTER_MAP s) as [c|].
  - left. exact H.
  - right. split; [exact H | reflexivity].
Qed.

(* ================================================================== *)
(** * Frames: proofs *)
(* ================================================================== *)

Section FrameFacts.

Variable K : Type.
Variable eqb : K -> K -> bool.
Variable leb : K -> K -> bool.
Hypothesis eqb_eq : forall a b, eqb a b = true <-> a = b.

Lemma eqb_refl (a : K) : eqb a a = true.
Proof. now apply eqb_eq. Qed.

Lemma eqb_neq (a b : K) : eqb a b = false <-> a <> b.
Proof.
  rewrite <- eqb_eq. destruct (eqb a b); split; congruence.
Qed.

Lemma unique_In (x : K) (l : list K) : In x (unique eqb l) <-> In x l.
Proof.
  induction l as [|y l IH]; simpl; [tauto|].
  rewrite filter_In, IH, negb_true_iff, eqb_neq.
  destruct (eqb x y) eqn:E.
  - apply eqb_eq in E. subst. tauto.
  - apply eqb_neq in E. split; [tauto|].
    intros [->|H]; [tauto | right; tauto].
Qed.

Lemma unique_NoDup (l : list K) : NoDup (unique eqb l).
Proof.
  induction l as [|y l IH]; simpl; constructor.
  - rewrite filter_In, negb_true_iff, eqb_neq. tauto.
  - now apply NoDup_filter.
Qed.

Lemma insert_sorted_perm (k : K) (l : list K) :
  Permutation (insert_sorted leb k l) (k :: l).
Proof.
  induction l as [|x l IH]; simpl; [reflexivity|].
  destruct (leb k x); [reflexivity|].
  rewrite IH. apply perm_swap.
Qed.

Lemma sort_keys_perm (l : list K) : Permutation (sort_keys leb l) l.
Proof.
  induction l as [|x l IH]; simpl; [reflexivity|].
  rewrite insert_sorted_perm. now apply perm_skip.
Qed.

Lemma sort_keys_In (x : K) (l : list K) : In x (sort_keys leb l) <-> In x l.
Proof.
  split; apply Permutation_in;
    [apply sort_keys_perm | symmetry; apply sort_keys_perm].
Qed.

Lemma sort_keys_NoDup (l : list K) : NoDup l -> NoDup (sort_keys leb l).
Proof.
  apply Permutation_NoDup. symmetry. apply sort_keys_perm.
Qed.

(** The distinct keys of a frame, sorted: what [groupby] and the outer
    [merge] iterate over. *)
Lemma sorted_unique_In (x : K) (l : list K) :
  In x (sort_keys leb (unique eqb l)) <-> In x l.
Proof. now rewrite sort_keys_In, unique_In. Qed.

Lemma sorted_unique_NoDup (l : list K) : NoDup (sort_keys leb (unique eqb l)).
Proof. apply sort_keys_NoDup, unique_NoDup. Qed.

Section Order.

Hypothesis leb_total : forall a b, leb a b = false -> leb b a = true.

Let le (a b : K) : Prop := leb a b = true.

Lemma insert_sorted_HdRel (a k : K) (l : list K) :
  le a k -> HdRel le a l -> HdRel le a (insert_sorted leb k l).
Proof.
  intros Hak Hl. destruct l as [|x l]; simpl.
  - now constructor.
  - destruct (leb k x); constructor; [exact Hak|].
    now inversion Hl.
Qed.

Lemma insert_sorted_Sorted (k : K) (l : list K) :
  Sorted le l -> Sorted le (insert_sorted leb k l).
Proof.
  induction l as [|x l IH]; intros Hs; simpl.
  - repeat constructor.
  - destruct (leb k x) eqn:E.
    + constructor; [exact Hs | now constructor].
    + inversion Hs as [|? ? Hs' Hhd]; subst.
      constructor; [now apply IH|].
      apply insert_sorted_HdRel; [now apply leb_total | exact Hhd].
Qed.

Lemma sort_keys_Sorted (l : list K) : Sorted le (sort_keys leb l).
Proof.
  induction l as [|x l IH]; simpl; [constructor|].
  now apply insert_sorted_Sorted.
Qed.

End Order.

End FrameFacts.

Section KeyedRows.

Variable K : Type.
Variable eqb : K -> K -> bool.
Hypothesis eqb_eq : forall a b, eqb a b = true <-> a = b.
Variable A : Type.

Lemma rows_of_In (k : K) (f : list (K * A)) (r : K * A) :
  In r (rows_of eqb k f) <-> In r f /\ fst r = k.
Proof. unfold rows_of. now rewrite filter_In, eqb_eq. Qed.

Lemma rows_of_absent (k : K) (f : list (K * A)) :
  ~ In k (map fst f) -> rows_of eqb k f = [].
Proof.
  intros Hk. unfold rows_of.
  induction f as [|r f IH]; simpl; [reflexivity|].
  destruct (eqb (fst r) k) eqn:E.
  - apply eqb_eq in E. exfalso. apply Hk. now left.
  - apply IH. intros H. apply Hk. now right.
Qed.

(** In a frame whose keys are distinct, a key selects at most one row. *)
Lemma rows_of_NoDup (k : K) (f : list (K * A)) :
  NoDup (map fst f) ->
  rows_of eqb k f = [] /\ ~ In k (map fst f)
  \/ exists v, rows_of eqb k f = [(k, v)] /\ In (k, v) f.
Proof.
  induction f as [|[k' v] f IH]; simpl; intros Hnd.
  - left. split; [reflexivity | tauto].
  - inversion Hnd as [|? ? Hk' Hnd']; subst.
    destruct (eqb k' k) eqn:E.
    + apply eqb_eq in E. subst k'. right. exists v.
      fold (rows_of eqb k f). rewrite (rows_of_absent _ _ Hk').
      split; [reflexivity | now left].
    + apply (eqb_neq eqb eqb_eq) in E. fold (rows_of eqb k f).
      destruct (IH Hnd') as [[H1 H2]|(w & H1 & H2)].
      * left. split; [exact H1|]. intros [H|H]; [contradiction | tauto].
      * right. exists w. split; [exact H1 | now right].
Qed.

End KeyedRows.

Lemma Qc_eq_bool_iff (p q : Qc) : Qc_eq_bool p q = true <-> p = q.
Proof.
  split; [apply Qc_eq_bool_correct|].
  intros ->. unfold Qc_eq_bool. destruct (Qc_eq_dec q q); congruence.
Qed.

Lemma pyobj_eqb_eq (a b : pyobj) : pyobj_eqb a b = true <-> a = b.
Proof.
  destruct a as [s|p|], b as [t|q|]; simpl;
    try (split; [discriminate | congruence]); try tauto.
  - rewrite String.eqb_eq. split; congruence.
  - rewrite Qc_eq_bool_iff. split; congruence.
Qed.

Lemma key_eqb_eq (a b : key) : key_eqb a b = true <-> a = b.
Proof.
  destruct a as [c e], b as [c' e']; unfold key_eqb; simpl.
  rewrite andb_true_iff, String.eqb_eq, pyobj_eqb_eq.
  split; [intros [-> ->]; reflexivity | intros H; inversion H; auto].
Qed.

Section ReconcileFacts.

Variable K : Type.
Variable eqb : K -> K -> bool.
Variable leb : K -> K -> bool.
Hypothesis eqb_eq : forall a b, eqb a b = true <-> a = b.

Lemma groupby_sum_keys (f : list (K * num)) :
  map fst (groupby_sum eqb leb f) = sort_keys leb (unique eqb (map fst f)).
Proof.
  unfold groupby_sum. rewrite map_map. simpl. apply map_id.
Qed.

Lemma groupby_sum_NoDup (f : list (K * num)) :
  NoDup (map fst (groupby_sum eqb leb f)).
Proof.
  rewrite groupby_sum_keys. now apply sorted_unique_NoDup.
Qed.

Lemma groupby_sum_In_key (f : list (K * num)) (k : K) :
  In k (map fst (groupby_sum eqb leb f)) <-> In k (map fst f).
Proof.
  rewrite groupby_sum_keys. now apply sorted_unique_In.
Qed.

Lemma lookup_groupby_sum (f : list (K * num)) (k : K) :
  lookup eqb k (groupby_sum eqb leb f) =
  if existsb (fun r => eqb (fst r) k) f
  then Some (sum_skipna (map snd (rows_of eqb k f)))
  else None.
Proof.
  unfold lookup.
  destruct (rows_of_NoDup eqb eqb_eq k (groupby_sum eqb leb f) (groupby_sum_NoDup f))
    as [[H1 H2]|(v & H1 & H2)]; rewrite H1.
  - rewrite groupby_sum_In_key in H2.
    destruct (existsb _ f) eqn:E; [|reflexivity].
    apply existsb_exists in E. destruct E as (r & Hr & Hk).
    apply eqb_eq in Hk. exfalso. apply H2. subst k. now apply in_map.
  - unfold groupby_sum in H2. apply in_map_iff in H2.
    destruct H2 as (k' & Hk' & Hin). inversion Hk'; subst k' v. simpl.
    rewrite (sorted_unique_In eqb leb eqb_eq) in Hin.
    apply in_map_iff in Hin. destruct Hin as (r & Hr & Hin).
    assert (E : existsb (fun r => eqb (fst r) k) f = true).
    { apply existsb_exists. exists r. split; [exact Hin | now apply eqb_eq]. }
    now rewrite E.
Qed.

Lemma flat_map_singletons (B : Type) (g : K -> list B) (h : K -> B) (l : list K) :
  (forall k, In k l -> g k = [h k]) -> flat_map g l = map h l.
Proof.
  induction l as [|k l IH]; intros H; [reflexivity|].
  change (g k ++ flat_map g l = h k :: map h l).
  rewrite (H k (or_introl eq_refl)), IH; [reflexivity|].
  intros k' Hk'. apply H. now right.
Qed.

(** On frames with distinct keys the outer merge has one row per key of the
    sorted union, holding each side's value or NaN. *)
Lemma merge_outer_normal (left right : list (K * Qc)) :
  NoDup (map fst left) -> NoDup (map fst right) ->
  merge_outer eqb leb left right =
  map (fun k => (k, (opt_num (lookup eqb k left), opt_num (lookup eqb k right))))
      (sort_keys leb (unique eqb (map fst left ++ map fst right))).
Proof.
  intros Hl Hr. unfold merge_outer.
  apply flat_map_singletons. intros k Hk.
  rewrite (sorted_unique_In eqb leb eqb_eq) in Hk. apply in_app_or in Hk.
  unfold lookup.
  destruct (rows_of_NoDup eqb eqb_eq k left Hl) as [[L1 L2]|(v & L1 & L2)];
    destruct (rows_of_NoDup eqb eqb_eq k right Hr) as [[R1 R2]|(w & R1 & R2)];
    rewrite L1, R1; simpl; try reflexivity.
  exfalso. tauto.
Qed.

Lemma filter_eqb_NoDup (k : K) (l : list K) :
  NoDup l -> In k l -> filter (fun x => eqb x k) l = [k].
Proof.
  induction l as [|x l IH]; simpl; intros Hnd Hin; [tauto|].
  inversion Hnd as [|? ? Hx Hnd']; subst.
  destruct (eqb x k) eqn:E.
  - apply eqb_eq in E. subst x. f_equal.
    clear IH Hin Hnd Hnd'.
    induction l as [|y l IH]; simpl; [reflexivity|].
    destruct (eqb y k) eqn:E.
    + apply eqb_eq in E. subst. exfalso. apply Hx. now left.
    + apply IH. intros H. apply Hx. now right.
  - apply (eqb_neq eqb eqb_eq) in E. destruct Hin as [H|H]; [congruence|].
    now apply IH.
Qed.

End ReconcileFacts.

(* ================================================================== *)
(** * Grouping and merge of the two sheets: proofs *)
(* ================================================================== *)

Lemma existsb_filter (A : Type) (p : A -> bool) (l : list A) :
  existsb p l = nonempty (filter p l).
Proof.
  induction l as [|x l IH]; simpl; [reflexivity|].
  destruct (p x); simpl; [reflexivity | exact IH].
Qed.

Lemma grp_unfold (df : list record) :
  grp (add_cluster df) = groupby_sum key_eqb key_leb (grp_frame df).
Proof. reflexivity. Qed.

Lemma grp_frame_rows (df : list record) (k : key) :
  snd k <> PNull ->
  rows_of key_eqb k (grp_frame df) =
  map (fun r => (key_of r, MINR_2025 r)) (source_rows df k).
Proof.
  intros Hk. unfold grp_frame, source_rows, rows_of, add_cluster.
  induction df as [|r df IH]; simpl; [reflexivity|].
  destruct (isnull (Employee_Responsible r)) eqn:En; simpl.
  - destruct (key_eqb (key_of r) k) eqn:E; [|exact IH].
    apply key_eqb_eq in E. subst k. simpl in Hk.
    destruct (Employee_Responsible r); try discriminate. congruence.
  - fold (key_of r). destruct (key_eqb (key_of r) k); simpl; now rewrite IH.
Qed.

Lemma grp_frame_nonnull (df : list record) (k : key) :
  In k (map fst (grp_frame df)) -> snd k <> PNull.
Proof.
  unfold grp_frame. rewrite map_map, in_map_iff.
  intros (cr & <- & Hin). apply filter_In in Hin. destruct Hin as [_ Hn].
  simpl. destruct (Employee_Responsible (snd cr)); simpl in *; congruence.
Qed.

Lemma grp_keys_nonnull (df : list record) (k : key) :
  In k (map fst (grp (add_cluster df))) -> snd k <> PNull.
Proof.
  rewrite grp_unfold, (groupby_sum_In_key key_eqb key_leb key_eqb_eq).
  apply grp_frame_nonnull.
Qed.

(** A pair is a key of the grouped frame exactly when some row of the sheet
    with a non-null employee falls under it. *)
Lemma grp_key_iff (df : list record) (k : key) :
  In k (map fst (grp (add_cluster df))) <->
  snd k <> PNull /\ source_rows df k <> [].
Proof.
  split.
  - intros H. pose proof (grp_keys_nonnull _ _ H) as Hn. split; [exact Hn|].
    rewrite grp_unfold, (groupby_sum_In_key key_eqb key_leb key_eqb_eq) in H.
    apply in_map_iff in H. destruct H as (r & Hr & Hin).
    assert (Hrow : In r (rows_of key_eqb k (grp_frame df)))
      by (apply (rows_of_In key_eqb key_eqb_eq); tauto).
    rewrite (grp_frame_rows df k Hn) in Hrow.
    destruct (source_rows df k); [contradiction | discriminate].
  - intros [Hn Hs].
    rewrite grp_unfold, (groupby_sum_In_key key_eqb key_leb key_eqb_eq).
    pose proof (grp_frame_rows df k Hn) as Hrows.
    destruct (source_rows df k) as [|r rs] eqn:E; [congruence|].
    assert (Hin : In (key_of r, MINR_2025 r) (rows_of key_eqb k (grp_frame df)))
      by (rewrite Hrows; now left).
    apply (rows_of_In key_eqb key_eqb_eq) in Hin. destruct Hin as [Hin Hk].
    simpl in Hk. rewrite <- Hk.
    change (key_of r) with (fst (key_of r, MINR_2025 r)). now apply in_map.
Qed.

(** The grouped value of a pair is the sum of the measure over its rows. *)
Lemma lookup_grp (df : list record) (k : key) :
  snd k <> PNull ->
  lookup key_eqb k (grp (add_cluster df)) =
  match source_rows df k with
  | [] => None
  | rs => Some (sum_skipna (map MINR_2025 rs))
  end.
Proof.
  intros Hn.
  rewrite grp_unfold, (lookup_groupby_sum key_eqb key_leb key_eqb_eq).
  change (existsb (fun r => key_eqb (fst r) k) (grp_frame df))
    with (existsb (fun r : key * num => key_eqb (fst r) k) (grp_frame df)).
  rewrite existsb_filter.
  fold (rows_of key_eqb k (grp_frame df)).
  rewrite (grp_frame_rows df k Hn), map_map. simpl.
  destruct (source_rows df k); reflexivity.
Qed.

Lemma fillna0_lookup_grp (df : list record) (k : key) :
  snd k <> PNull ->
  fillna0 (opt_num (lookup key_eqb k (grp (add_cluster df)))) = source_total df k.
Proof.
  intros Hn. rewrite (lookup_grp df k Hn). unfold source_total.
  destruct (source_rows df k); reflexivity.
Qed.

Lemma grp_In (df : list record) (k : key) (v : Qc) :
  In (k, v) (grp (add_cluster df)) -> source_total df k = Fin v.
Proof.
  intros H.
  assert (Hk : In k (map fst (grp (add_cluster df))))
    by (change k with (fst (k, v)); now apply in_map).
  apply grp_key_iff in Hk. destruct Hk as [Hn Hs].
  rewrite grp_unfold in H. unfold groupby_sum in H.
  apply in_map_iff in H. destruct H as (k' & Hk' & _).
  inversion Hk'; subst k' v.
  rewrite (grp_frame_rows df k Hn), map_map. simpl.
  unfold source_total. destruct (source_rows df k); [congruence | reflexivity].
Qed.

Lemma merged_keys_In (df_sales df_ob : list record) (k : key) :
  In k (merged_keys df_sales df_ob) <->
  In k (map fst (grp (add_cluster df_ob)))
  \/ In k (map fst (grp (add_cluster df_sales))).
Proof.
  unfold merged_keys.
  rewrite (sorted_unique_In key_eqb key_leb key_eqb_eq), in_app_iff. tauto.
Qed.

Lemma merged_keys_nonnull (df_sales df_ob : list record) (k : key) :
  In k (merged_keys df_sales df_ob) -> snd k <> PNull.
Proof.
  rewrite merged_keys_In. intros [H|H]; eapply grp_keys_nonnull; eauto.
Qed.

(** [merged] has one row per pair of the sorted union of both grouped
    frames; each side's column holds that side's total, 0 when the pair is
    absent from the side. *)
Lemma reconcile_normal (df_sales df_ob : list record) :
  reconcile df_sales df_ob =
  map (fun k => {| m_Cluster := fst k;
                   m_Employee_Responsible := snd k;
                   MINR_2025_ob := source_total df_ob k;
                   MINR_2025_sales := source_total df_sales k |})
      (merged_keys df_sales df_ob).
Proof.
  unfold reconcile, merged.
  rewrite (merge_outer_normal key_eqb key_leb key_eqb_eq)
    by (rewrite grp_unfold; apply (groupby_sum_NoDup key_eqb key_leb key_eqb_eq)).
  fold (merged_keys df_sales df_ob).
  rewrite map_map. apply map_ext_in. intros k Hk. simpl.
  pose proof (merged_keys_nonnull _ _ _ Hk) as Hn.
  rewrite !fillna0_lookup_grp by exact Hn.
  f_equal. destruct (snd k); simpl; congruence.
Qed.

Lemma merged_keys_NoDup (df_sales df_ob : list record) :
  NoDup (merged_keys df_sales df_ob).
Proof. apply (sorted_unique_NoDup key_eqb key_leb key_eqb_eq). Qed.

(** C2.  For every (cluster, employee) pair that is a key of the grouped
    OB frame or of the grouped sales frame, [merged] holds exactly one row
    under that pair.  Its OB column is the grouped OB sum of the pair and
    its sales column the grouped sales sum (each the sum of the measure
    over the sheet's rows of the pair), with 0 on a side whose grouped
    frame does not have the pair. *)
Theorem reconcile_outer_join (df_sales df_ob : list record) (k : key) :
  let grp_ob := grp (add_cluster df_ob) in
  let grp_sales := grp (add_cluster df_sales) in
  In k (map fst grp_ob) \/ In k (map fst grp_sales) ->
  exists r,
    filter (fun m => key_eqb (mkey m) k) (reconcile df_sales df_ob) = [r]
    /\ mkey r = k
    /\ MINR_2025_ob r = source_total df_ob k
    /\ MINR_2025_sales r = source_total df_sales k
    /\ (forall v, In (k, v) grp_ob -> MINR_2025_ob r = Fin v)
    /\ (~ In k (map fst grp_ob) -> MINR_2025_ob r = zero)
    /\ (forall v, In (k, v) grp_sales -> MINR_2025_sales r = Fin v)
    /\ (~ In k (map fst grp_sales) -> MINR_2025_sales r = zero).
Proof.
  intros grp_ob grp_sales Hk.
  assert (Hin : In k (merged_keys df_sales df_ob)) by now apply merged_keys_In.
  pose proof (merged_keys_nonnull _ _ _ Hin) as Hn.
  eexists. split; [|split; [|split; [|split]]].
  - rewrite reconcile_normal, filter_map_swap.
    rewrite (@filter_ext _ _ (fun x => key_eqb x k)) by (intros a; reflexivity).
    rewrite (filter_eqb_NoDup key_eqb key_leb key_eqb_eq k (merged_keys_NoDup df_sales df_ob) Hin).
    reflexivity.
  - destruct k; reflexivity.
  - reflexivity.
  - reflexivity.
  - simpl. repeat split.
    + intros v Hv. now apply grp_In.
    + intros Ha. unfold source_total.
      destruct (source_rows df_ob k) eqn:E; [reflexivity|].
      exfalso. apply Ha, grp_key_iff. split; [exact Hn | congruence].
    + intros v Hv. now apply grp_In.
    + intros Ha. unfold source_total.
      destruct (source_rows df_sales k) eqn:E; [reflexivity|].
      exfalso. apply Ha, grp_key_iff. split; [exact Hn | congruence].
Qed.

(** The pair (OD, Arun) is in the sales sheet only: [merged] has one row
    for it, with 0 on the OB side. *)
Lemma reconcile_outer_join_witness :
  exists r,
    filter (fun m => key_eqb (mkey m) ("OD"%string, PStr "Arun"))
           (reconcile [sample "Arun" "PP1" 100] [sample "Rahul" "PP1" 40]) = [r]
    /\ MINR_2025_ob r = zero.
Proof.
  destruct (reconcile_outer_join
              [sample "Arun" "PP1" 100] [sample "Rahul" "PP1" 40]
              ("OD"%string, PStr "Arun"))
    as (r & H1 & _ & _ & _ & _ & H6 & _).
  - right. vm_compute. left. reflexivity.
  - exists r. split; [exact H1|]. apply H6.
    vm_compute. intros [H|[]]. discriminate H.
Defined.

(* ================================================================== *)
(** * Order of the cluster passes: proofs *)
(* ================================================================== *)

Lemma label_lt_iff (a b : string) : label_lt a b <-> String_as_OT.lt a b.
Proof.
  unfold label_lt, String.ltb. rewrite <- String_as_OT.cmp_lt.
  unfold String_as_OT.cmp. destruct (String.compare a b); split; congruence.
Qed.

Lemma label_le_iff (a b : string) : label_le a b <-> a = b \/ label_lt a b.
Proof.
  rewrite label_lt_iff, <- String_as_OT.cmp_lt, <- (String_as_OT.cmp_eq a b).
  unfold label_le, String.leb, String_as_OT.cmp.
  destruct (String.compare a b); split; try tauto; try congruence.
  intros [H|H]; discriminate.
Qed.

Lemma label_lt_trans (a b c : string) : label_lt a b -> label_lt b c -> label_lt a c.
Proof. rewrite !label_lt_iff. apply String_as_OT.lt_trans. Qed.

#[local] Instance label_le_Transitive : Transitive label_le.
Proof.
  intros a b c. rewrite !label_le_iff.
  intros [->|H1] [->|H2]; try tauto.
  right. eapply label_lt_trans; eauto.
Qed.

Lemma StronglySorted_filter (A : Type) (R : A -> A -> Prop) (p : A -> bool)
  (l : list A) :
  StronglySorted R l -> StronglySorted R (filter p l).
Proof.
  induction 1 as [|x l Hs IH Hx]; simpl; [constructor|].
  destruct (p x); [|exact IH].
  constructor; [exact IH|].
  rewrite Forall_forall in *. intros y Hy. apply filter_In in Hy. now apply Hx.
Qed.

(** The distinct labels of a non-decreasing column come out strictly
    increasing. *)
Lemma unique_sorted_strict (l : list string) :
  Sorted label_le l -> StronglySorted label_lt (unique String.eqb l).
Proof.
  intros Hs. apply Sorted_StronglySorted in Hs; [|apply label_le_Transitive].
  induction Hs as [|x l Hs IH Hx]; simpl; constructor.
  - now apply StronglySorted_filter.
  - rewrite Forall_forall in *. intros y Hy.
    apply filter_In in Hy. destruct Hy as [Hy Hne].
    rewrite (unique_In String.eqb String.leb String.eqb_eq) in Hy.
    apply Hx, label_le_iff in Hy. destruct Hy as [->|Hy]; [|exact Hy].
    rewrite String.eqb_refl in Hne. discriminate.
Qed.

Lemma compare_refl (a : string) : String.compare a a = Eq.
Proof.
  pose proof (String.compare_antisym a a) as H.
  destruct (String.compare a a); simpl in H; congruence.
Qed.

Lemma pyobj_leb_total (a b : pyobj) : pyobj_leb a b = false -> pyobj_leb b a = true.
Proof.
  destruct a as [s|p|], b as [t|q|]; simpl; try congruence.
  - intros H. destruct (String.leb_total s t); congruence.
  - intros H. apply Qle_bool_iff, Qlt_le_weak, Qnot_le_lt.
    intros Hle. apply Qle_bool_iff in Hle. congruence.
Qed.

Lemma key_leb_total (a b : key) : key_leb a b = false -> key_leb b a = true.
Proof.
  unfold key_leb. rewrite (String.compare_antisym (fst b) (fst a)).
  destruct (String.compare (fst a) (fst b)); simpl; try congruence.
  apply pyobj_leb_total.
Qed.

Lemma key_leb_label (a b : key) : key_leb a b = true -> label_le (fst a) (fst b).
Proof.
  unfold key_leb, label_le, String.leb.
  destruct (String.compare (fst a) (fst b)); congruence.
Qed.

Lemma Sorted_map_fst (l : list key) :
  Sorted (fun a b => key_leb a b = true) l -> Sorted label_le (map fst l).
Proof.
  induction 1 as [|x l Hs IH Hx]; simpl; constructor; [exact IH|].
  destruct Hx; simpl; constructor. now apply key_leb_label.
Qed.

(** The Cluster column of [merged] is non-decreasing. *)
Lemma reconcile_clusters_sorted (df_sales df_ob : list record) :
  Sorted label_le (map m_Cluster (reconcile df_sales df_ob)).
Proof.
  rewrite reconcile_normal, map_map. simpl.
  apply Sorted_map_fst. unfold merged_keys.
  apply sort_keys_Sorted, key_leb_total.
Qed.

Lemma blocks_cluster_order (emp_targets : dict) (m : list mrow) :
  cluster_order (blocks emp_targets m) = unique String.eqb (map m_Cluster m).
Proof.
  unfold cluster_order, blocks, groupby_nosort.
  rewrite !map_map. simpl. apply map_id.
Qed.

(** C6, as amended.  The loop visits the clusters in order of first
    appearance in [merged] ([groupby(..., sort=False)]); [merged] itself
    comes out of the outer merge sorted by key, so the clusters are visited
    in strictly increasing code-point order of their labels. *)
Theorem cluster_order_is_merged_order (df_sales df_ob : list record)
  (emp_targets : dict) :
  cluster_order (pivot2 df_sales df_ob emp_targets) =
    unique String.eqb (map m_Cluster (reconcile df_sales df_ob))
  /\ StronglySorted label_lt (cluster_order (pivot2 df_sales df_ob emp_targets)).
Proof.
  unfold pivot2. rewrite blocks_cluster_order. split; [reflexivity|].
  apply unique_sorted_strict, reconcile_clusters_sorted.
Qed.

(** C6, counterexample.  Both sheets list Sunny (JSR) before Rahul (B+R):
    JSR appears first in the input, whichever way the two sheets are
    combined, yet the loop visits B+R first. *)
Lemma cluster_order_not_first_appearance :
  let df := [sample "Sunny" "PP1" 1; sample "Rahul" "PP1" 1] in
  first_appearance (df ++ df) = ["JSR"; "B+R"]%string
  /\ cluster_order (pivot2 df df []) = ["B+R"; "JSR"]%string
  /\ cluster_order (pivot2 df df []) <> first_appearance (df ++ df).
Proof.
  repeat split; try reflexivity. vm_compute. discriminate.
Qed.

(* ================================================================== *)
(** * Target tables and the BU loop: proofs *)
(* ================================================================== *)

(** Closes a goal [Fin a = Fin b] between two computed values. *)
Ltac num_eq :=
  vm_compute;
  lazymatch goal with
  | |- Fin _ = Fin _ => f_equal; apply Qc_is_canon; vm_compute; reflexivity
  | |- PyFloat (Fin _) = PyFloat (Fin _) =>
      do 2 f_equal; apply Qc_is_canon; vm_compute; reflexivity
  | |- _ => reflexivity
  end.

Lemma dict_set_In_key (d : dict) (k : pyobj) (v : num) (x : pyobj) :
  In x (map fst (dict_set d k v)) <-> In x (map fst d) \/ x = k.
Proof.
  induction d as [|[k' v'] d IH]; simpl.
  - split; [intros [H|[]]; auto | intros [[]|H]; auto].
  - destruct (pyobj_eqb k' k) eqn:E; simpl.
    + apply pyobj_eqb_eq in E. subst k'. split; [tauto|].
      intros [H|H]; [exact H | left; congruence].
    + rewrite IH. tauto.
Qed.

Lemma dict_set_NoDup (d : dict) (k : pyobj) (v : num) :
  NoDup (map fst d) -> NoDup (map fst (dict_set d k v)).
Proof.
  induction d as [|[k' v'] d IH]; simpl; intros Hnd.
  - repeat constructor. tauto.
  - destruct (pyobj_eqb k' k) eqn:E; simpl; [exact Hnd|].
    inversion Hnd as [|? ? Hk' Hnd']; subst.
    constructor; [|now apply IH].
    rewrite dict_set_In_key. intros [H|H]; [contradiction|].
    subst k'. rewrite (proj2 (pyobj_eqb_eq k k) eq_refl) in E. discriminate.
Qed.

Lemma fold_dict_set_NoDup (sheet : list (pyobj * num)) (d : dict) :
  NoDup (map fst d) ->
  NoDup (map fst (fold_left (fun d kv => dict_set d (fst kv) (fillna0 (snd kv)))
                            sheet d)).
Proof.
  revert d. induction sheet as [|kv sheet IH]; simpl; intros d Hd; [exact Hd|].
  apply IH. now apply dict_set_NoDup.
Qed.

(** A dict built by [to_dict] has each key once. *)
Lemma to_dict_NoDup (sheet : list (pyobj * num)) : NoDup (map fst (to_dict sheet)).
Proof. apply fold_dict_set_NoDup. constructor. Qed.

Lemma bu_performance_rows_keys (df_sales df_ob : list record) (bu_targets : dict) :
  map BU (bu_performance_rows df_sales df_ob bu_targets) = map fst bu_targets.
Proof.
  unfold bu_performance_rows. rewrite map_map. reflexivity.
Qed.

(** C5, at the scenario of the claim.  Product code "PP1" falls under BU
    "PP"; with BU target 1000 and sales 100 the row reports sales 100 and
    remaining 900, and the achievement string is "10.0%", the text of the
    float 10.0 followed by the percent sign: one decimal place, not two. *)
Theorem bu_scenario_achievement :
  get_bu_from_helios (PStr "PP1") = "PP"%string
  /\ exists r,
       bu_performance_rows [sample "Arun" "PP1" 100] []
         (to_dict [(PStr "PP", of_Z 1000)]) = [r]
       /\ Sales_mn r = of_Z 100
       /\ Sales_Remaining_mn r = of_Z 900
       /\ ACH_Sales_pct r = "10.0%"%string
       /\ ACH_Sales_pct r <> "10.00%"%string.
Proof.
  split; [reflexivity|].
  eexists. split; [vm_compute; reflexivity|].
  repeat split; try num_eq.
  vm_compute. discriminate.
Qed.

(* ================================================================== *)
(** * Column checks of the route: proofs *)
(* ================================================================== *)

(** C9, the failing path.  When the stripped header of the sales sheet has
    no [Employee Responsible] column, the route ends with an uncaught
    [KeyError] raised by the cluster assignment, before the check that
    would have replied with the missing column's name. *)
Theorem upload_without_employee_column (df_sales df_ob : sheet)
  (emp_targets_df bu_targets_df : list (pyobj * num)) :
  PyStr.mem "Employee Responsible" (map PyStr.strip (columns df_sales)) = false ->
  upload df_sales df_ob emp_targets_df bu_targets_df
  = Uncaught (KeyError "Employee Responsible").
Proof.
  intros H. unfold upload, classify_frame. rewrite H. reflexivity.
Qed.

Lemma upload_without_employee_column_witness :
  upload {| columns := ["Helios Code"; "MINR-2025"]%string;
            body := [sample "Arun" "PP1" 100] |}
         {| columns := full_header; body := [sample "Arun" "PP1" 40] |}
         [(PStr "Arun", of_Z 200)] [(PStr "PP", of_Z 1000)]
  = Uncaught (KeyError "Employee Responsible").
Proof.
  apply upload_without_employee_column. reflexivity.
Defined.

(** The checks that follow the cluster assignment do reply with the name
    of the column: a sales sheet without [Helios Code], and an OB sheet
    without the measure column. *)
Lemma upload_labeled_replies :
  upload {| columns := ["Employee Responsible"; "MINR-2025"]%string;
            body := [sample "Arun" "PP1" 100] |}
         {| columns := full_header; body := [] |} [] []
  = Reply400 "⚠️ Missing column(s) in sales: Helios Code"
  /\ upload {| columns := full_header; body := [sample "Arun" "PP1" 100] |}
            {| columns := ["Employee Responsible"; " Helios Code "]%string;
               body := [] |} [] []
     = Reply400 "⚠️ Column 'MINR-2025' not found in the OB sheet.".
Proof. split; reflexivity. Qed.

(* ================================================================== *)
(** * The single-employee scenario *)
(* ================================================================== *)

(** C3.  Sales [Arun, PP1, 100], OB [Arun, PP1, 40], employee target
    Arun = 200: the route emits the OD subtotal row followed by Arun's row,
    and both report OB total 40, sales total 100, target 200, OB remaining
    160, sales remaining 100, OB achievement 20 and sales achievement 50. *)
Theorem single_employee_scenario :
  get_cluster (PStr "Arun") = "OD"%string
  /\ exists t s e,
       upload {| columns := full_header; body := [sample "Arun" "PP1" 100] |}
              {| columns := full_header; body := [sample "Arun" "PP1" 40] |}
              [(PStr "Arun", of_Z 200)] [] = Rendered t
       /\ t_rows t = [s; e]
       /\ t_cluster_rows t = [s] /\ t_emp_rows t = [e]
       /\ Cluster s = "OD"%string /\ Name s = PStr "OD Total"
       /\ Cluster e = "OD"%string /\ Name e = PStr "Arun"
       /\ Forall (fun r =>
                    OB_Total_mn r = of_Z 40
                    /\ Sales_Total_mn r = of_Z 100
                    /\ Target r = PyFloat (of_Z 200)
                    /\ OB_Remaining r = PyFloat (of_Z 160)
                    /\ Sales_Remaining r = PyFloat (of_Z 100)
                    /\ OB_Achiev_pct r = PyFloat (of_Z 20)
                    /\ Sales_Achiev_pct r = PyFloat (of_Z 50)) [s; e].
Proof.
  split; [reflexivity|].
  do 3 eexists. split; [vm_compute; reflexivity|].
  repeat split; try reflexivity.
  repeat constructor; num_eq.
Qed.

(* ================================================================== *)
(** * Cluster targets: proofs *)
(* ================================================================== *)

Lemma fillna0_fin (x : num) : is_nan (fillna0 x) = false.
Proof. destruct x; reflexivity. Qed.

Lemma dict_set_fin (d : dict) (k : pyobj) (v : num) :
  fin_valued d -> is_nan v = false -> fin_valued (dict_set d k v).
Proof.
  unfold fin_valued. induction d as [|[k' v'] d IH]; simpl; intros Hd Hv.
  - now repeat constructor.
  - inversion Hd; subst. destruct (pyobj_eqb k' k); constructor; auto.
Qed.

Lemma to_dict_fin (sheet : list (pyobj * num)) : fin_valued (to_dict sheet).
Proof.
  unfold to_dict.
  assert (H : fin_valued []) by constructor.
  revert H. generalize (@nil (pyobj * num)) as d.
  induction sheet as [|kv sheet IH]; simpl; intros d Hd; [exact Hd|].
  apply IH, dict_set_fin; [exact Hd | apply fillna0_fin].
Qed.

(** A lookup in a dict of numbers: the stored number when the key is
    present, the default when it is absent. *)
Lemma dict_get_cases (d : dict) (k : pyobj) :
  fin_valued d ->
  (dict_has d k = true /\
   exists q, In (k, Fin q) d /\ forall default, dict_get d k default = Fin q)
  \/ (dict_has d k = false /\ forall default, dict_get d k default = default).
Proof.
  unfold fin_valued, dict_has.
  induction d as [|[k' v'] d IH]; simpl; intros Hd.
  - right. split; reflexivity.
  - inversion Hd as [|? ? Hv Hd']; subst. simpl in Hv.
    destruct (pyobj_eqb k' k) eqn:E; simpl.
    + left. split; [reflexivity|]. apply pyobj_eqb_eq in E. subst k'.
      destruct v' as [|q]; [discriminate|]. exists q. split; [now left | reflexivity].
    + destruct (IH Hd') as [[H1 (q & Hin & Hq)]|[H1 H2]].
      * left. split; [exact H1|]. exists q. split; [now right | exact Hq].
      * right. split; [exact H1 | exact H2].
Qed.

Lemma sum_skipna_acc (l : list num) (a : Qc) :
  fold_left (fun acc x => match x with NaN => acc | Fin q => Qcplus acc q end) l a
  = Qcplus a (sum_skipna l).
Proof.
  unfold sum_skipna. revert a.
  induction l as [|x l IH]; simpl; intros a.
  - change (Q2Qc 0) with (0%Qc). now rewrite Qcplus_0_r.
  - destruct x as [|q].
    + apply IH.
    + rewrite (IH (Qcplus a q)), (IH (Qcplus (Q2Qc 0) q)).
      change (Q2Qc 0) with (0%Qc). ring.
Qed.

Lemma sum_skipna_cons (x : num) (l : list num) :
  sum_skipna (x :: l) =
  match x with NaN => sum_skipna l | Fin q => Qcplus q (sum_skipna l) end.
Proof.
  unfold sum_skipna at 1. simpl. rewrite sum_skipna_acc.
  change (Q2Qc 0) with (0%Qc).
  destruct x; [apply Qcplus_0_l | now rewrite Qcplus_0_l].
Qed.

Lemma add_zero_l (q : Qc) : Num.add zero (Fin q) = Fin q.
Proof.
  unfold Num.add, zero, of_Z. simpl. f_equal.
  change (Q2Qc (inject_Z 0)) with (0%Qc). apply Qcplus_0_l.
Qed.

(** Mapping the members through the dict and summing with NaN skipped adds
    up the same numbers as summing the employee-level lookups. *)
Lemma sum_map_dict (d : dict) (names : list pyobj) :
  fin_valued d ->
  Fin (sum_skipna (map (map_dict d) names))
  = total (map (resolve_employee_target d) names).
Proof.
  intros Hd. induction names as [|n names IH]; [reflexivity|].
  cbn [map total fold_right]. fold (total (map (resolve_employee_target d) names)).
  rewrite <- IH, sum_skipna_cons. unfold map_dict, resolve_employee_target.
  destruct (dict_get_cases n Hd) as [[_ (q & _ & Hq)]|[_ Hq]]; rewrite !Hq.
  - reflexivity.
  - now rewrite add_zero_l.
Qed.

Lemma all_nan_map_dict (d : dict) (names : list pyobj) :
  fin_valued d ->
  forallb is_nan (map (map_dict d) names) = negb (existsb (dict_has d) names).
Proof.
  intros Hd. induction names as [|n names IH]; [reflexivity|].
  simpl. rewrite IH, negb_orb. f_equal. unfold map_dict.
  destruct (dict_get_cases n Hd) as [[H (q & _ & Hq)]|[H Hq]]; rewrite Hq, H;
    reflexivity.
Qed.

Lemma NoDup_map_inv_key (l : list key) (c : string) :
  NoDup l -> Forall (fun k => fst k = c) l -> NoDup (map snd l).
Proof.
  induction l as [|[c' e] l IH]; simpl; intros Hnd Hc; [constructor|].
  inversion Hnd as [|? ? Hx Hnd']; subst. inversion Hc as [|? ? Hc1 Hc']; subst.
  constructor; [|now apply IH].
  intros Hin. apply Hx. apply in_map_iff in Hin.
  destruct Hin as ([c2 e2] & He & Hin). simpl in *. subst e2.
  rewrite Forall_forall in Hc'. specialize (Hc' _ Hin). simpl in *. now subst c2.
Qed.

(** The rows of one group carry the group's cluster and come from [merged]
    in its order; their employees are pairwise distinct. *)
Lemma cluster_groups_spec (df_sales df_ob : list record) (g : string * list mrow) :
  In g (cluster_groups df_sales df_ob) ->
  snd g = filter (fun r => String.eqb (m_Cluster r) (fst g))
                 (reconcile df_sales df_ob)
  /\ NoDup (members (snd g)).
Proof.
  unfold cluster_groups, groupby_nosort. intros H.
  apply in_map_iff in H. destruct H as (c & <- & _). simpl.
  split; [reflexivity|].
  rewrite reconcile_normal, filter_map_swap. unfold members.
  rewrite map_map. simpl.
  apply NoDup_map_inv_key with (c := c).
  - apply NoDup_filter, merged_keys_NoDup.
  - apply Forall_forall. intros k Hk. apply filter_In in Hk.
    destruct Hk as [_ Hk]. simpl in Hk. now apply String.eqb_eq.
Qed.

(** C7, as amended.  For every cluster group of the loop, the members are
    pairwise distinct and the resolved cluster target is: the table's entry
    for the cluster label when the label is a key of the employee-target
    table; otherwise, when at least one member is a key, the sum over the
    members of the employee-level lookup (a member that is not a key adds
    0); and NaN, a null, when no member is a key. *)
Theorem cl_target_two_tier (df_sales df_ob : list record)
  (emp_targets_df : list (pyobj * num)) (g : string * list mrow) :
  let emp_targets := to_dict emp_targets_df in
  let clust := fst g in
  let names := members (snd g) in
  In g (cluster_groups df_sales df_ob) ->
  NoDup names
  /\ (dict_has emp_targets (PStr clust) = true ->
      exists q, In (PStr clust, Fin q) emp_targets
                /\ cl_target emp_targets clust (snd g) = Fin q)
  /\ (dict_has emp_targets (PStr clust) = false ->
      existsb (dict_has emp_targets) names = true ->
      cl_target emp_targets clust (snd g)
      = total (map (resolve_employee_target emp_targets) names))
  /\ (dict_has emp_targets (PStr clust) = false ->
      existsb (dict_has emp_targets) names = false ->
      cl_target emp_targets clust (snd g) = NaN).
Proof.
  intros emp_targets clust names Hg.
  pose proof (to_dict_fin emp_targets_df) as Hfin. fold emp_targets in Hfin.
  split; [apply (cluster_groups_spec _ _ _ Hg)|].
  unfold cl_target.
  destruct (dict_get_cases (PStr clust) Hfin) as [[H (q & Hin & Hq)]|[H Hq]];
    rewrite H, Hq.
  - split; [|split]; try discriminate. intros _. exists q. now split.
  - split; [discriminate|].
    rewrite <- (map_map m_Employee_Responsible (map_dict emp_targets)).
    fold (members (snd g)). fold names.
    unfold sum_min_count1. rewrite (all_nan_map_dict names Hfin).
    split; intros _ He; rewrite He; simpl; [|reflexivity].
    now apply sum_map_dict.
Qed.

Lemma cl_target_two_tier_witness :
  let emp_targets := to_dict [(PStr "Arun", of_Z 200)] in
  let sub := reconcile [sample "Arun" "PP1" 100] [] in
  cl_target emp_targets "OD" sub
  = total (map (resolve_employee_target emp_targets) (members sub)).
Proof.
  intros emp_targets sub.
  refine (proj1 (proj2 (proj2
            (cl_target_two_tier [sample "Arun" "PP1" 100] []
               [(PStr "Arun", of_Z 200)] ("OD"%string, sub) _))) _ _).
  - vm_compute. left. reflexivity.
  - reflexivity.
  - reflexivity.
Defined.

(** C7, counterexample.  Arun's only row puts him in cluster OD; the target
    table has an entry for Rahul only, so neither "OD" nor "Arun" is a key.
    The code resolves the cluster target to NaN, where the sum of the
    employee-level lookups is 0, and the subtotal row reports a null
    target. *)
Lemma cl_target_unmatched_is_nan :
  let emp_targets := to_dict [(PStr "Rahul", of_Z 500)] in
  exists sub,
    cluster_groups [sample "Arun" "PP1" 100] [] = [("OD"%string, sub)]
    /\ cl_target emp_targets "OD" sub = NaN
    /\ resolve_cluster_target_spec emp_targets "OD" (members sub) = zero
    /\ cl_target emp_targets "OD" sub
       <> resolve_cluster_target_spec emp_targets "OD" (members sub)
    /\ Target (subtotal_row emp_targets "OD" sub) = PyFloat NaN.
Proof.
  intros emp_targets.
  eexists. split; [vm_compute; reflexivity|].
  repeat split; try num_eq.
  vm_compute. discriminate.
Qed.

(* ================================================================== *)
(** * Null policy of remaining and achievement: proofs *)
(* ================================================================== *)

Lemma scale_nonzero : Qc_eq_bool (Q2Qc (inject_Z 1)) 0 = false.
Proof. reflexivity. Qed.

Lemma div_scale_fin (q : Qc) : exists x, div (Fin q) EMP_SCALE = Fin x.
Proof.
  unfold div, EMP_SCALE, of_Z. rewrite scale_nonzero. eauto.
Qed.

Lemma total_mn_fin (q : Qc) :
  exists x, round (div (Fin q) EMP_SCALE) EMP_DEC = Fin x.
Proof.
  destruct (div_scale_fin q) as [x ->]. simpl. eauto.
Qed.

Lemma round_nan_iff (x : num) (n : nat) : round x n = NaN <-> x = NaN.
Proof. destruct x; simpl; split; congruence. Qed.

Lemma sub_fin_nan_iff (t : num) (x : Qc) : Num.sub t (Fin x) = NaN <-> t = NaN.
Proof. destruct t; simpl; split; congruence. Qed.

Lemma is_null_float (x : num) : is_null (PyFloat x) <-> x = NaN.
Proof.
  unfold is_null. split; [intros [H|H]; congruence | intros ->; now right].
Qed.

Lemma Qc_eq_bool_false (t : Qc) : t <> 0%Qc -> Qc_eq_bool t 0 = false.
Proof.
  intros H. destruct (Qc_eq_bool t 0) eqn:E; [|reflexivity].
  apply Qc_eq_bool_correct in E. contradiction.
Qed.

(** The fields of a subtotal row, in terms of its target and totals. *)
Lemma subtotal_row_shape (emp_targets : dict) (clust : string) (sub : list mrow) :
  let s := subtotal_row emp_targets clust sub in
  exists (T : num) (x y : Qc),
    Target s = PyFloat T
    /\ OB_Total_mn s = Fin x /\ Sales_Total_mn s = Fin y
    /\ OB_Remaining s = PyFloat (round (Num.sub T (Fin x)) EMP_DEC)
    /\ Sales_Remaining s = PyFloat (round (Num.sub T (Fin y)) EMP_DEC)
    /\ OB_Achiev_pct s
       = if_truthy (PyFloat T) (fun t => round (mul (div (Fin x) t) hundred) 2)
    /\ Sales_Achiev_pct s
       = if_truthy (PyFloat T) (fun t => round (mul (div (Fin y) t) hundred) 2).
Proof.
  unfold subtotal_row. cbv zeta.
  cbn [Target OB_Total_mn Sales_Total_mn OB_Remaining Sales_Remaining
       OB_Achiev_pct Sales_Achiev_pct if_not_None].
  destruct (total_mn_fin (sum_skipna (map MINR_2025_ob sub))) as [x ->].
  destruct (total_mn_fin (sum_skipna (map MINR_2025_sales sub))) as [y ->].
  eexists _, x, y. repeat split.
Qed.

Lemma achievement_computed (T : num) (x t : Qc) :
  T = Fin t -> t <> 0%Qc ->
  if_truthy (PyFloat T) (fun t => round (mul (div (Fin x) t) hundred) 2)
  = PyFloat (round (mul (div (Fin x) (Fin t)) hundred) 2)
  /\ ~ is_null (if_truthy (PyFloat T)
                  (fun t => round (mul (div (Fin x) t) hundred) 2)).
Proof.
  intros -> Ht. simpl. rewrite (Qc_eq_bool_false Ht). simpl.
  split; [reflexivity|]. rewrite is_null_float. discriminate.
Qed.

Lemma achievement_null (T : num) (x : Qc) :
  T = zero \/ T = NaN ->
  is_null (if_truthy (PyFloat T) (fun t => round (mul (div (Fin x) t) hundred) 2)).
Proof.
  intros [->| ->]; [now left | now right].
Qed.

Lemma dict_get_absent (d : dict) (k : pyobj) (default : num) :
  dict_has d k = false -> dict_get d k default = default.
Proof.
  unfold dict_has. induction d as [|[k' v] d IH]; simpl; [reflexivity|].
  destruct (pyobj_eqb k' k); simpl; [discriminate | exact IH].
Qed.

Lemma round_fin (q : Qc) (n : nat) : exists x, round (Fin q) n = Fin x.
Proof. simpl. eauto. Qed.

(** The target a subtotal row reports is null exactly when the resolved
    cluster target is. *)
Lemma subtotal_target_fin (emp_targets : dict) (clust : string) (sub : list mrow) :
  match cl_target emp_targets clust sub with
  | NaN => Target (subtotal_row emp_targets clust sub) = PyFloat NaN
  | Fin _ => exists t, Target (subtotal_row emp_targets clust sub) = PyFloat (Fin t)
  end.
Proof.
  unfold subtotal_row. cbv zeta. cbn [Target if_not_None].
  destruct (cl_target emp_targets clust sub) as [|q]; [reflexivity|].
  destruct (round_fin q EMP_DEC) as [x ->].
  destruct (total_mn_fin x) as [y ->]. eauto.
Qed.

Lemma achievement_present (T : num) (x : Qc) :
  ~ is_null (if_truthy (PyFloat T) (fun t => round (mul (div (Fin x) t) hundred) 2))
  <-> exists t : Qc, PyFloat T = PyFloat (Fin t) /\ t <> 0%Qc.
Proof.
  split.
  - intros Hn. destruct T as [|t].
    + exfalso. apply Hn. now right.
    + exists t. split; [reflexivity|]. intros ->. apply Hn. now left.
  - intros (t & Ht & Hne). injection Ht as ->.
    now apply (achievement_computed x eq_refl Hne).
Qed.


(** C4, a resolved target that is not 0 but rounds to 0.00.  Cluster OD has
    the cluster-level target 1/256 = 0.00390625 and sales 50: the row
    reports target 0.0 and no sales achievement. *)
Lemma rounded_away_target_achievement :
  exists s es,
    pivot2 [sample "Arun" "PP1" 50] [] (to_dict [(PStr "OD", Fin (Q2Qc (1 # 256)))])
    = [(s, es)]
    /\ cl_target (to_dict [(PStr "OD", Fin (Q2Qc (1 # 256)))]) "OD"
         (reconcile [sample "Arun" "PP1" 50] []) = Fin (Q2Qc (1 # 256))
    /\ Target s = PyFloat zero
    /\ Sales_Achiev_pct s = PyNone.
Proof.
  do 2 eexists. split; [vm_compute; reflexivity|].
  repeat split; try num_eq.
Qed.


(* ================================================================== *)
(** * Rollup of cluster subtotals: proofs *)
(* ================================================================== *)

Lemma rint_integer (q : Q) (k : Z) : q == inject_Z k -> rint q = k.
Proof.
  unfold Qeq, rint. simpl. intros H. rewrite Z.mul_1_r in H. rewrite H.
  rewrite Z.div_mul, Z.mod_mul by discriminate.
  simpl. reflexivity.
Qed.

Lemma round_cents (k : Z) : round (cents k) 2 = cents k.
Proof.
  unfold cents, round, units. change (pow10 2) with 100%positive.
  do 3 f_equal.
  apply rint_integer. unfold Q2Qc. cbn [this]. rewrite Qred_correct.
  unfold Qeq. simpl. lia.
Qed.

Lemma div_scale (x : num) : div x EMP_SCALE = x.
Proof.
  destruct x as [|q]; [reflexivity|].
  unfold div, EMP_SCALE, of_Z. rewrite scale_nonzero. f_equal.
  change (Q2Qc (inject_Z 1)) with (1%Qc). unfold Qcdiv.
  replace (/ 1)%Qc with (1%Qc) by (apply Qc_is_canon; reflexivity).
  apply Qcmult_1_r.
Qed.

Lemma add_cents (k j : Z) : Num.add (cents k) (cents j) = cents (k + j).
Proof.
  unfold cents, Num.add, lift2. f_equal. unfold Qcplus.
  apply Q2Qc_eq_iff. unfold Q2Qc. cbn [this]. rewrite !Qred_correct.
  unfold Qeq. simpl. lia.
Qed.

Lemma total_cents (l : list num) : Forall is_cents l -> is_cents (total l).
Proof.
  induction 1 as [|x l [k ->] _ [j IH]]; cbn [total fold_right].
  - exists 0%Z. unfold zero, of_Z, cents. f_equal.
    apply Qc_is_canon. reflexivity.
  - exists (k + j)%Z. fold (total l). rewrite IH. apply add_cents.
Qed.

Lemma map_round_cents (l : list num) :
  Forall is_cents l -> map (fun x => round x 2) l = l.
Proof.
  induction 1 as [|x l [k ->] _ IH]; cbn [map]; [reflexivity|].
  now rewrite round_cents, IH.
Qed.

Lemma sum_skipna_total (l : list num) :
  Forall (fun x => is_nan x = false) l -> Fin (sum_skipna l) = total l.
Proof.
  induction 1 as [|x l Hx _ IH]; [reflexivity|].
  rewrite sum_skipna_cons. simpl. rewrite <- IH.
  destruct x; [discriminate | reflexivity].
Qed.

Lemma source_total_fin (df : list record) (k : key) :
  is_nan (source_total df k) = false.
Proof. unfold source_total. destruct (source_rows df k); reflexivity. Qed.

(** Both measure columns of [merged], and of any group of it, hold numbers. *)
Lemma cluster_groups_fin (df_sales df_ob : list record) (g : string * list mrow) :
  In g (cluster_groups df_sales df_ob) ->
  Forall (fun x => is_nan x = false) (map MINR_2025_ob (snd g))
  /\ Forall (fun x => is_nan x = false) (map MINR_2025_sales (snd g)).
Proof.
  intros Hg. destruct (cluster_groups_spec _ _ _ Hg) as [-> _].
  rewrite reconcile_normal.
  split; apply Forall_forall; intros x Hx;
    apply in_map_iff in Hx; destruct Hx as (m & <- & Hm);
    apply filter_In in Hm; destruct Hm as [Hm _];
    apply in_map_iff in Hm; destruct Hm as (k & <- & _);
    apply source_total_fin.
Qed.

Lemma subtotal_row_totals (emp_targets : dict) (clust : string) (sub : list mrow) :
  Forall (fun x => is_nan x = false) (map MINR_2025_ob sub) ->
  Forall (fun x => is_nan x = false) (map MINR_2025_sales sub) ->
  OB_Total_mn (subtotal_row emp_targets clust sub)
  = round (total (map MINR_2025_ob sub)) 2
  /\ Sales_Total_mn (subtotal_row emp_targets clust sub)
     = round (total (map MINR_2025_sales sub)) 2.
Proof.
  intros Ho Hs. unfold subtotal_row. cbv zeta. cbn [OB_Total_mn Sales_Total_mn].
  now rewrite !div_scale, (sum_skipna_total Ho), (sum_skipna_total Hs).
Qed.

Lemma emp_row_totals (emp_targets : dict) (clust : string) (sub : list mrow) :
  map OB_Total_mn (map (emp_row emp_targets clust) sub)
  = map (fun x => round x 2) (map MINR_2025_ob sub)
  /\ map Sales_Total_mn (map (emp_row emp_targets clust) sub)
     = map (fun x => round x 2) (map MINR_2025_sales sub).
Proof.
  rewrite !map_map.
  split; apply map_ext; intros m; unfold emp_row; cbv zeta;
    cbn [OB_Total_mn Sales_Total_mn]; now rewrite div_scale.
Qed.

Lemma zero_is_cents : zero = cents 0.
Proof. unfold zero, of_Z, cents. f_equal. apply Qc_is_canon. reflexivity. Qed.

Lemma of_Z_plus (a b : Z) :
  Qcplus (Q2Qc (inject_Z a)) (Q2Qc (inject_Z b)) = Q2Qc (inject_Z (a + b)).
Proof.
  unfold Qcplus. apply Q2Qc_eq_iff. unfold Q2Qc. cbn [this].
  rewrite !Qred_correct. unfold Qeq. simpl. lia.
Qed.

Lemma is_whole_fin (q : Qc) :
  is_whole (Fin q) = true -> q = Q2Qc (inject_Z (Qnum q)).
Proof.
  cbn [is_whole]. intros H. apply Pos.eqb_eq in H.
  apply Qc_is_canon. unfold Q2Qc. cbn [this]. rewrite Qred_correct.
  unfold Qeq. simpl. rewrite H. lia.
Qed.

Lemma sum_skipna_whole (l : list num) :
  forallb is_whole l = true -> exists n : Z, sum_skipna l = Q2Qc (inject_Z n).
Proof.
  induction l as [|x l IH]; intros H.
  - exists 0%Z. reflexivity.
  - cbn [forallb] in H. apply andb_true_iff in H. destruct H as [Hx Hl].
    destruct (IH Hl) as [n Hn]. rewrite sum_skipna_cons.
    destruct x as [|q]; [now exists n|].
    exists (Qnum q + n)%Z. rewrite Hn, (is_whole_fin q Hx) at 1.
    apply of_Z_plus.
Qed.

Lemma of_Z_cents (n : Z) : of_Z n = cents (100 * n).
Proof.
  unfold of_Z, cents. f_equal. apply Q2Qc_eq_iff.
  unfold Qeq, inject_Z. cbn [Qnum Qden]. lia.
Qed.

Lemma whole_amounts_whole (l : list num) :
  whole_amounts l = true -> forallb is_whole l = true.
Proof. unfold whole_amounts. intros H. now apply andb_true_iff in H. Qed.

Lemma source_total_whole (df : list record) (k : key) :
  forallb is_whole (map MINR_2025 df) = true -> is_cents (source_total df k).
Proof.
  intros H. unfold source_total, source_rows.
  destruct (filter (fun r => key_eqb (key_of r) k) df) as [|r rs] eqn:E.
  - exists 0%Z. apply zero_is_cents.
  - rewrite <- E.
    destruct (sum_skipna_whole (map MINR_2025 (filter (fun r => key_eqb (key_of r) k) df)))
      as [n Hn].
    + rewrite forallb_forall in *. intros x Hx.
      apply in_map_iff in Hx. destruct Hx as (r' & <- & Hr').
      apply filter_In in Hr'. apply H. apply in_map. tauto.
    + rewrite Hn. exists (100 * n)%Z. apply of_Z_cents.
Qed.

(** On sheets of whole amounts both measure columns of every group of
    [merged] hold whole numbers. *)
Lemma cluster_groups_whole (df_sales df_ob : list record) (g : string * list mrow) :
  forallb is_whole (map MINR_2025 df_sales) = true ->
  forallb is_whole (map MINR_2025 df_ob) = true ->
  In g (cluster_groups df_sales df_ob) ->
  Forall is_cents (map MINR_2025_ob (snd g))
  /\ Forall is_cents (map MINR_2025_sales (snd g)).
Proof.
  intros Hs Ho Hg. destruct (cluster_groups_spec _ _ _ Hg) as [-> _].
  rewrite reconcile_normal.
  split; apply Forall_forall; intros x Hx;
    apply in_map_iff in Hx; destruct Hx as (m & <- & Hm);
    apply filter_In in Hm; destruct Hm as [Hm _];
    apply in_map_iff in Hm; destruct Hm as (k & <- & _);
    now apply source_total_whole.
Qed.

(** C1, as amended.  On sheets of whole amounts (sizes adding up to at most
    2^46 per sheet), for every pass of the loop over a group [sub] of
    [merged]: each employee row reports its member's OB and sales total as
    it stands, and the subtotal row's OB total and sales total are the sums
    of the totals its employee rows report. *)
Theorem subtotal_is_sum_on_whole_amounts (df_sales df_ob : list record)
  (emp_targets : dict) (b : row * list row) :
  whole_amounts (map MINR_2025 df_sales) = true ->
  whole_amounts (map MINR_2025 df_ob) = true ->
  In b (pivot2 df_sales df_ob emp_targets) ->
  exists sub,
    In (Cluster (fst b), sub) (cluster_groups df_sales df_ob)
    /\ snd b = map (emp_row emp_targets (Cluster (fst b))) sub
    /\ map OB_Total_mn (snd b) = map MINR_2025_ob sub
    /\ map Sales_Total_mn (snd b) = map MINR_2025_sales sub
    /\ OB_Total_mn (fst b) = total (map OB_Total_mn (snd b))
    /\ Sales_Total_mn (fst b) = total (map Sales_Total_mn (snd b)).
Proof.
  intros Ws Wo. apply whole_amounts_whole in Ws, Wo.
  unfold pivot2, blocks. fold (cluster_groups df_sales df_ob).
  intros Hb. apply in_map_iff in Hb. destruct Hb as ([c sub] & <- & Hg).
  exists sub. cbn [cluster_block fst snd].
  change (Cluster (subtotal_row emp_targets c sub)) with c.
  destruct (cluster_groups_fin _ _ _ Hg) as [Ho Hs]. cbn [snd] in Ho, Hs.
  destruct (cluster_groups_whole _ _ _ Ws Wo Hg) as [Co Cs]. cbn [snd] in Co, Cs.
  destruct (subtotal_row_totals emp_targets c sub Ho Hs) as [So Ss].
  destruct (emp_row_totals emp_targets c sub) as [Eo Es].
  rewrite So, Ss, Eo, Es, (map_round_cents Co), (map_round_cents Cs).
  repeat split; try assumption.
  - destruct (total_cents Co) as [k ->]. apply round_cents.
  - destruct (total_cents Cs) as [k ->]. apply round_cents.
Qed.

Lemma subtotal_is_sum_on_whole_amounts_witness :
  let df := [sample "Arun" "PP1" 100; sample "Mahesh" "PP2" 25] in
  exists b,
    pivot2 df [] [] = [b]
    /\ Sales_Total_mn (fst b) = total (map Sales_Total_mn (snd b)).
Proof.
  intros df.
  destruct (subtotal_is_sum_on_whole_amounts df [] []
              (hd (subtotal_row [] "" [], []) (pivot2 df [] [])))
    as (sub & _ & _ & _ & _ & _ & H).
  - reflexivity.
  - reflexivity.
  - vm_compute. left. reflexivity.
  - eexists. split; [vm_compute; reflexivity | exact H].
Defined.

(** C1, counterexample.  Arun and Mahesh, both of cluster OD, each have
    sales 1/256 = 0.00390625: each employee row reports 0.00, their sum is
    0, and the OD subtotal row reports round(0.0078125, 2) = 0.01. *)
Lemma subtotal_not_sum_of_rounded :
  exists s es,
    pivot2 [sample "Arun" "PP1" (1 # 256); sample "Mahesh" "PP1" (1 # 256)] [] []
    = [(s, es)]
    /\ List.length es = 2%nat
    /\ Forall (fun e => Sales_Total_mn e = cents 0) es
    /\ total (map Sales_Total_mn es) = cents 0
    /\ Sales_Total_mn s = cents 1
    /\ Sales_Total_mn s <> total (map Sales_Total_mn es).
Proof.
  do 2 eexists. split; [vm_compute; reflexivity|].
  repeat split; try num_eq.
  - repeat constructor; num_eq.
  - intros H.
    apply (f_equal (fun x => match x with Fin q => Qnum q | NaN => 0%Z end)) in H.
    vm_compute in H. discriminate H.
Qed.

(* ================================================================== *)
(** * Classifiers, continued: the BU rules and the range of clusters *)
(* ================================================================== *)

Lemma append_same_length (p q b b' : string) :
  String.length p = String.length q ->
  (p ++ b)%string = (q ++ b')%string -> p = q.
Proof.
  revert q. induction p as [|a p IH]; intros [|c q]; simpl; try discriminate.
  - reflexivity.
  - intros Hl He. injection Hl as Hl. injection He as -> He.
    f_equal. now apply IH.
Qed.

(** Two patterns of the same length that both begin a string are equal. *)
Lemma prefix_exclusive (p q s : string) :
  String.length p = String.length q ->
  String.prefix p s = true -> String.prefix q s = true -> p = q.
Proof.
  intros Hl Hp Hq. apply prefix_iff in Hp, Hq.
  destruct Hp as [b Hb], Hq as [b' Hb'].
  apply (append_same_length p q b b' Hl). congruence.
Qed.

Lemma starts_with_str (s p : string) :
  starts_with (PStr s) p <-> String.prefix p s = true.
Proof.
  rewrite prefix_iff. unfold starts_with.
  split; intros [b Hb]; exists b; congruence.
Qed.

Ltac two_prefixes :=
  match goal with
  | H1 : String.prefix ?p ?s = true, H2 : String.prefix ?q ?s = true |- _ =>
      let H := fresh in
      assert (H := prefix_exclusive p q s eq_refl H1 H2); discriminate H
  end.

(** X1.  [get_bu_from_helios] returns "PP", "H&D", "IND", "SP" or "DE"
    exactly for the strings that begin with PP, with HD, with ID, with SP
    or PS, with DP or DE, and "Other" exactly for every other value,
    strings and non-strings alike. *)
Theorem get_bu_from_helios_rules (helios_code : pyobj) :
  (get_bu_from_helios helios_code = "PP"%string <-> starts_with helios_code "PP")
  /\ (get_bu_from_helios helios_code = "H&D"%string
      <-> starts_with helios_code "HD")
  /\ (get_bu_from_helios helios_code = "IND"%string
      <-> starts_with helios_code "ID")
  /\ (get_bu_from_helios helios_code = "SP"%string
      <-> starts_with helios_code "SP" \/ starts_with helios_code "PS")
  /\ (get_bu_from_helios helios_code = "DE"%string
      <-> starts_with helios_code "DP" \/ starts_with helios_code "DE")
  /\ (get_bu_from_helios helios_code = "Other"%string
      <-> ~ Exists (starts_with helios_code)
                   ["PP"; "HD"; "ID"; "SP"; "PS"; "DP"; "DE"]%string).
Proof.
  rewrite !Exists_cons, Exists_nil.
  destruct helios_code as [s|q|].
  - rewrite !starts_with_str. unfold get_bu_from_helios, PyStr.startswith.
    destruct (String.prefix "PP" s) eqn:E1;
      destruct (String.prefix "HD" s) eqn:E2;
      destruct (String.prefix "ID" s) eqn:E3;
      destruct (String.prefix "SP" s) eqn:E4;
      destruct (String.prefix "PS" s) eqn:E5;
      destruct (String.prefix "DP" s) eqn:E6;
      destruct (String.prefix "DE" s) eqn:E7;
      try two_prefixes; simpl;
      repeat split; intros; try discriminate; try reflexivity;
      intuition discriminate.
  - assert (N : forall p, ~ starts_with (PNum q) p)
      by (intros p [b Hb]; discriminate Hb).
    simpl. repeat split; intros; try discriminate; try reflexivity;
      intuition (try discriminate; try (exfalso; eapply N; eassumption)).
  - assert (N : forall p, ~ starts_with PNull p)
      by (intros p [b Hb]; discriminate Hb).
    simpl. repeat split; intros; try discriminate; try reflexivity;
      intuition (try discriminate; try (exfalso; eapply N; eassumption)).
Qed.

Lemma scan_map_range (m : list (string * string)) (s c : string) :
  scan_map m s = Some c -> In c (map snd m).
Proof.
  induction m as [|[p c'] m IH]; simpl; [discriminate|].
  destruct (PyStr.contains p s); [intros [= ->]; now left | right; auto].
Qed.

Lemma get_cluster_range (x : pyobj) : In (get_cluster x) CLUSTERS.
Proof.
  unfold get_cluster. destruct x as [s| |]; try (right; left; reflexivity).
  destruct (scan_map EMPLOYEE_CLUSTER_MAP s) as [c|] eqn:E;
    [|right; left; reflexivity].
  apply scan_map_range in E. simpl in E. unfold CLUSTERS.
  repeat (destruct E as [<-|E]; [simpl; tauto|]). contradiction.
Qed.

(** The cluster of a pair of [merged] is the cluster of its employee. *)
Lemma merged_keys_cluster (df_sales df_ob : list record) (k : key) :
  In k (merged_keys df_sales df_ob) -> fst k = get_cluster (snd k).
Proof.
  rewrite merged_keys_In.
  assert (H : forall df, In k (map fst (grp (add_cluster df))) ->
                         fst k = get_cluster (snd k)).
  { intros df. rewrite grp_unfold, (groupby_sum_In_key key_eqb key_leb key_eqb_eq).
    unfold grp_frame, add_cluster. rewrite map_map, in_map_iff.
    intros (cr & <- & Hin). apply filter_In in Hin. destruct Hin as [Hin _].
    apply in_map_iff in Hin. destruct Hin as (r & <- & _). reflexivity. }
  intros [Hk|Hk]; eapply H; eauto.
Qed.

(** X2.  Whatever the sheets hold, the loop makes at most four passes: the
    clusters it visits are pairwise distinct and each is one of CG, OD,
    B+R and JSR. *)
Theorem at_most_four_clusters (df_sales df_ob : list record) (emp_targets : dict) :
  NoDup (cluster_order (pivot2 df_sales df_ob emp_targets))
  /\ incl (cluster_order (pivot2 df_sales df_ob emp_targets)) CLUSTERS
  /\ (List.length (pivot2 df_sales df_ob emp_targets) <= 4)%nat.
Proof.
  assert (Hnd : NoDup (cluster_order (pivot2 df_sales df_ob emp_targets))).
  { unfold pivot2. rewrite blocks_cluster_order.
    apply (unique_NoDup String.eqb String.leb String.eqb_eq). }
  assert (Hin : incl (cluster_order (pivot2 df_sales df_ob emp_targets)) CLUSTERS).
  { unfold pivot2. rewrite blocks_cluster_order. intros c Hc.
    rewrite (unique_In String.eqb String.leb String.eqb_eq) in Hc.
    rewrite reconcile_normal, map_map in Hc. simpl in Hc.
    apply in_map_iff in Hc. destruct Hc as (k & <- & Hk).
    rewrite (merged_keys_cluster _ _ _ Hk). apply get_cluster_range. }
  repeat split; try assumption.
  replace (List.length (pivot2 df_sales df_ob emp_targets))
    with (List.length (cluster_order (pivot2 df_sales df_ob emp_targets)))
    by (unfold cluster_order; apply length_map).
  apply (NoDup_incl_length Hnd Hin).
Qed.

(* ================================================================== *)
(** * The route's checks, continued *)
(* ================================================================== *)

Lemma mem_set_column (c n : string) (cols : list string) :
  PyStr.mem c (set_column cols n) = PyStr.mem c cols || String.eqb c n.
Proof.
  unfold set_column, PyStr.mem. destruct (existsb (String.eqb n) cols) eqn:E.
  - destruct (String.eqb c n) eqn:Ec; [|now rewrite orb_false_r].
    apply String.eqb_eq in Ec. subst c. now rewrite E.
  - rewrite existsb_app. simpl. now rewrite orb_false_r.
Qed.

Lemma distinct_count (c : string) (l : list string) :
  distinct l = true -> Nat.leb 2 (count c l) = false.
Proof.
  unfold count. intros H. apply Nat.leb_gt.
  induction l as [|x l IH]; cbn [filter List.length]; [lia|].
  cbn [distinct] in H. apply andb_true_iff in H. destruct H as [Hx Hl].
  specialize (IH Hl). destruct (String.eqb c x) eqn:E; [|lia].
  apply String.eqb_eq in E. subst x. cbn [List.length].
  assert (Hz : filter (String.eqb c) l = []).
  { apply negb_true_iff in Hx. unfold PyStr.mem in Hx.
    induction l as [|y l IHl]; [reflexivity|].
    cbn [existsb] in Hx. apply orb_false_iff in Hx. destruct Hx as [Hy Hx].
    cbn [filter]. rewrite Hy. apply IHl; [exact Hx | |].
    - cbn [distinct] in Hl. apply andb_true_iff in Hl. tauto.
    - cbn [filter List.length] in IH. destruct (String.eqb c y); simpl in IH; lia. }
  rewrite Hz. simpl. lia.
Qed.

(** The route on sheets with distinct labels, as one cascade of tests. *)
Lemma upload_cases (df_sales df_ob : sheet)
  (emp_targets_df bu_targets_df : list (pyobj * num)) :
  distinct_columns df_sales = true ->
  distinct_columns df_ob = true ->
  upload df_sales df_ob emp_targets_df bu_targets_df =
  if negb (has_column df_sales "Employee Responsible")
     || negb (has_column df_ob "Employee Responsible")
  then Uncaught (KeyError "Employee Responsible")
  else if negb (has_column df_sales "Helios Code")
  then Reply400 "⚠️ Missing column(s) in sales: Helios Code"
  else if negb (has_column df_ob "Helios Code")
  then Reply400 "⚠️ Missing column(s) in OB: Helios Code"
  else if negb (has_column df_sales "MINR-2025")
  then Reply400 "⚠️ Column 'MINR-2025' not found in the sales sheet."
  else if negb (has_column df_ob "MINR-2025")
  then Reply400 "⚠️ Column 'MINR-2025' not found in the OB sheet."
  else
    let bs := pivot2 (body df_sales) (body df_ob) (to_dict emp_targets_df) in
    if nonempty (emp_rows_of_blocks bs)
    then Rendered {| t_rows := rows_of_blocks bs;
                     t_cluster_rows := cluster_rows_of_blocks bs;
                     t_emp_rows := emp_rows_of_blocks bs;
                     t_bu_performance_rows :=
                       bu_performance_rows (body df_sales) (body df_ob)
                                           (to_dict bu_targets_df) |}
    else Uncaught (KeyError_labels ["Target"%string]).
Proof.
  unfold distinct_columns. intros Ds Do.
  unfold upload, classify_frame, has_column.
  rewrite (distinct_count "Employee Responsible" _ Ds),
          (distinct_count "Employee Responsible" _ Do).
  destruct (PyStr.mem "Employee Responsible" (map PyStr.strip (columns df_sales)))
    eqn:Es; [|reflexivity].
  destruct (PyStr.mem "Employee Responsible" (map PyStr.strip (columns df_ob)))
    eqn:Eo; [|reflexivity].
  cbn [bind c_columns c_body negb orb]. unfold ID_COLS, not_in. cbn [filter].
  rewrite !mem_set_column, Es, Eo. cbn [orb negb String.eqb Ascii.eqb Bool.eqb].
  rewrite !orb_false_r, !orb_true_r. cbn [negb].
  destruct (PyStr.mem "Helios Code" (map PyStr.strip (columns df_sales)));
    [|reflexivity].
  destruct (PyStr.mem "Helios Code" (map PyStr.strip (columns df_ob)));
    [|reflexivity].
  cbn [negb nonempty reply_if bind].
  destruct (PyStr.mem "MINR-2025" (map PyStr.strip (columns df_sales)));
    [|reflexivity].
  destruct (PyStr.mem "MINR-2025" (map PyStr.strip (columns df_ob)));
    [|reflexivity].
  cbn [negb reply_if bind]. cbv zeta.
  fold (reconcile (body df_sales) (body df_ob)).
  fold (pivot2 (body df_sales) (body df_ob) (to_dict emp_targets_df)).
  destruct (emp_rows_of_blocks (pivot2 (body df_sales) (body df_ob)
                                       (to_dict emp_targets_df)));
    reflexivity.
Qed.

Lemma drop_prefix_spec (p s t : list ascii) :
  PyStr.drop_prefix p s = Some t <-> s = p ++ t.
Proof.
  revert s. induction p as [|a p IH]; intros s; cbn [PyStr.drop_prefix app].
  - split; [intros H; now injection H | intros ->; reflexivity].
  - destruct s as [|b s]; [split; discriminate|].
    destruct (Ascii.eqb a b) eqn:E.
    + apply Ascii.eqb_eq in E. subst b. rewrite IH.
      split; [intros ->; reflexivity | intros H; now injection H].
    + apply Ascii.eqb_neq in E. split; [discriminate|].
      intros H. injection H as H _. congruence.
Qed.

Lemma drop_space_some (ws : list (list ascii)) (s t : list ascii) :
  PyStr.drop_space ws s = Some t -> exists w, In w ws /\ s = w ++ t.
Proof.
  induction ws as [|w ws IH]; cbn [PyStr.drop_space]; [discriminate|].
  destruct (PyStr.drop_prefix w s) as [t'|] eqn:E.
  - intros H. injection H as ->. exists w. split; [now left|].
    now apply drop_prefix_spec.
  - intros H. destruct (IH H) as (w' & Hw' & Hs). exists w'. split; [now right | exact Hs].
Qed.

Lemma drop_space_none (ws : list (list ascii)) (s : list ascii) :
  PyStr.drop_space ws s = None <-> forall w t, In w ws -> s <> w ++ t.
Proof.
  induction ws as [|w ws IH]; cbn [PyStr.drop_space].
  - split; [intros _ w t [] | reflexivity].
  - destruct (PyStr.drop_prefix w s) as [t'|] eqn:E.
    + split; [discriminate|]. intros H. exfalso.
      apply (H w t'); [now left | now apply drop_prefix_spec].
    + rewrite IH. split.
      * intros H w' t [<-|Hw'].
        -- intros Hs. apply drop_prefix_spec in Hs. congruence.
        -- now apply H.
      * intros H w' t Hw'. apply H. now right.
Qed.

(** What is left once the stripping stops begins with no character of
    [ws]. *)
Lemma strip_fuel_clean (ws : list (list ascii)) :
  Forall (fun w => w <> []) ws ->
  forall (fuel : nat) (s : list ascii),
    (List.length s <= fuel)%nat ->
    PyStr.drop_space ws (PyStr.strip_fuel ws fuel s) = None.
Proof.
  intros Hne. induction fuel as [|f IH]; intros s Hl; cbn [PyStr.strip_fuel].
  - destruct s; [|simpl in Hl; lia].
    apply drop_space_none. intros w t Hw Hs.
    symmetry in Hs. apply app_eq_nil in Hs. destruct Hs as [Hs _].
    rewrite Forall_forall in Hne. now apply (Hne w Hw).
  - destruct (PyStr.drop_space ws s) as [t|] eqn:E; [|exact E].
    apply IH. destruct (drop_space_some _ _ E) as (w & Hw & ->).
    rewrite Forall_forall in Hne. specialize (Hne w Hw).
    rewrite length_app in Hl. destruct w; [contradiction|]. simpl in Hl. lia.
Qed.

Lemma strip_fuel_fixed (ws : list (list ascii)) (fuel : nat) (s : list ascii) :
  PyStr.drop_space ws s = None -> PyStr.strip_fuel ws fuel s = s.
Proof. intros H. destruct fuel; cbn [PyStr.strip_fuel]; [|rewrite H]; reflexivity. Qed.

Lemma strip_fuel_suffix (ws : list (list ascii)) (fuel : nat) (s : list ascii) :
  exists d, s = d ++ PyStr.strip_fuel ws fuel s.
Proof.
  revert s. induction fuel as [|f IH]; intros s; cbn [PyStr.strip_fuel].
  - now exists [].
  - destruct (PyStr.drop_space ws s) as [t|] eqn:E; [|now exists []].
    destruct (drop_space_some _ _ E) as (w & _ & ->).
    destruct (IH t) as [d Hd]. exists (w ++ d). now rewrite <- app_assoc, <- Hd.
Qed.

Lemma drop_space_prefix (ws : list (list ascii)) (y z : list ascii) :
  PyStr.drop_space ws (y ++ z) = None -> PyStr.drop_space ws y = None.
Proof.
  rewrite !drop_space_none. intros H w t Hw ->.
  apply (H w (t ++ z) Hw). now rewrite app_assoc.
Qed.

Lemma whitespace_nonempty : Forall (fun w : list ascii => w <> []) PyStr.WHITESPACE.
Proof. repeat constructor; discriminate. Qed.

Lemma whitespace_rev_nonempty :
  Forall (fun w : list ascii => w <> []) (map (@rev ascii) PyStr.WHITESPACE).
Proof. repeat constructor; discriminate. Qed.

Lemma strip_bytes_idem (s : list ascii) :
  PyStr.rstrip_bytes (PyStr.lstrip_bytes (PyStr.rstrip_bytes (PyStr.lstrip_bytes s)))
  = PyStr.rstrip_bytes (PyStr.lstrip_bytes s).
Proof.
  set (x := PyStr.lstrip_bytes s).
  assert (Hx : PyStr.drop_space PyStr.WHITESPACE x = None).
  { apply (strip_fuel_clean whitespace_nonempty). apply le_n. }
  unfold PyStr.rstrip_bytes at 2 3.
  set (r := PyStr.strip_fuel (map (@rev ascii) PyStr.WHITESPACE) (List.length x) (rev x)).
  assert (Hr : PyStr.drop_space (map (@rev ascii) PyStr.WHITESPACE) r = None).
  { apply (strip_fuel_clean whitespace_rev_nonempty). rewrite length_rev. apply le_n. }
  destruct (strip_fuel_suffix (map (@rev ascii) PyStr.WHITESPACE) (List.length x) (rev x))
    as [d Hd].
  fold r in Hd.
  assert (Hy : PyStr.drop_space PyStr.WHITESPACE (rev r) = None).
  { apply (drop_space_prefix _ (rev r) (rev d)).
    rewrite <- rev_app_distr, <- Hd, rev_involutive. exact Hx. }
  unfold PyStr.lstrip_bytes at 1. rewrite (@strip_fuel_fixed _ _ _ Hy).
  unfold PyStr.rstrip_bytes. rewrite rev_involutive.
  now rewrite (@strip_fuel_fixed _ _ _ Hr).
Qed.

Lemma strip_idem (s : string) : PyStr.strip (PyStr.strip s) = PyStr.strip s.
Proof.
  unfold PyStr.strip. rewrite list_ascii_of_string_of_list_ascii.
  now rewrite strip_bytes_idem.
Qed.

(** [str.strip] removes every character that [str.isspace] accepts: a
    header padded with U+00A0 (bytes C2 A0) and U+3000 (bytes E3 80 80) is
    the column itself. *)
Lemma strip_unicode_padding :
  let nbsp := String (ascii_of_nat 194) (String (ascii_of_nat 160) EmptyString) in
  let wide := String (ascii_of_nat 227) (String (ascii_of_nat 128)
                (String (ascii_of_nat 128) EmptyString)) in
  PyStr.strip (nbsp ++ " Employee Responsible" ++ wide ++ nbsp)
  = "Employee Responsible"%string.
Proof. reflexivity. Qed.

(** X4.  Header names are compared after trimming, and trimming twice
    changes nothing: the route treats two sheets with white space around
    their header names exactly as it treats the same sheets with the
    headers already trimmed. *)
Theorem upload_ignores_header_padding (df_sales df_ob : sheet)
  (emp_targets_df bu_targets_df : list (pyobj * num)) :
  upload {| columns := map PyStr.strip (columns df_sales); body := body df_sales |}
         {| columns := map PyStr.strip (columns df_ob); body := body df_ob |}
         emp_targets_df bu_targets_df
  = upload df_sales df_ob emp_targets_df bu_targets_df.
Proof.
  unfold upload, classify_frame. cbn [columns body].
  rewrite !map_map, !(map_ext _ _ strip_idem). reflexivity.
Qed.

(* ================================================================== *)
(** * Target dicts, continued *)
(* ================================================================== *)

Lemma pyobj_eqb_refl (a : pyobj) : pyobj_eqb a a = true.
Proof. now apply pyobj_eqb_eq. Qed.

Lemma pyobj_eqb_sym (a b : pyobj) : pyobj_eqb a b = pyobj_eqb b a.
Proof.
  destruct (pyobj_eqb a b) eqn:E1, (pyobj_eqb b a) eqn:E2; try reflexivity.
  - apply pyobj_eqb_eq in E1. subst. now rewrite pyobj_eqb_refl in E2.
  - apply pyobj_eqb_eq in E2. subst. now rewrite pyobj_eqb_refl in E1.
Qed.

Lemma dict_get_set_same (d : dict) (k : pyobj) (v default : num) :
  dict_get (dict_set d k v) k default = v.
Proof.
  induction d as [|[k' v'] d IH]; simpl.
  - now rewrite pyobj_eqb_refl.
  - destruct (pyobj_eqb k' k) eqn:E; simpl; rewrite E; [reflexivity | exact IH].
Qed.

Lemma dict_get_set_other (d : dict) (k k' : pyobj) (v default : num) :
  pyobj_eqb k k' = false ->
  dict_get (dict_set d k v) k' default = dict_get d k' default.
Proof.
  intros Hk. induction d as [|[k0 v0] d IH]; simpl.
  - now rewrite Hk.
  - destruct (pyobj_eqb k0 k) eqn:E; simpl.
    + apply pyobj_eqb_eq in E. subst k0. now rewrite Hk.
    + destruct (pyobj_eqb k0 k'); [reflexivity | exact IH].
Qed.

Lemma dict_has_set (d : dict) (k x : pyobj) (v : num) :
  dict_has (dict_set d k v) x = dict_has d x || pyobj_eqb k x.
Proof.
  unfold dict_has. induction d as [|[k0 v0] d IH]; simpl.
  - now rewrite orb_false_r.
  - destruct (pyobj_eqb k0 k) eqn:E; simpl.
    + apply pyobj_eqb_eq in E. subst k0.
      destruct (pyobj_eqb k x); simpl; [reflexivity | now rewrite orb_false_r].
    + rewrite IH. now rewrite orb_assoc.
Qed.

Lemma dict_set_keys (d : dict) (k : pyobj) (v : num) :
  map fst (dict_set d k v)
  = if dict_has d k then map fst d else map fst d ++ [k].
Proof.
  unfold dict_has. induction d as [|[k0 v0] d IH]; simpl; [reflexivity|].
  destruct (pyobj_eqb k0 k); simpl; [reflexivity|].
  rewrite IH. now destruct (existsb _ d).
Qed.

Lemma filter_filter (A : Type) (p q : A -> bool) (l : list A) :
  filter p (filter q l) = filter (fun x => q x && p x) l.
Proof.
  induction l as [|x l IH]; simpl; [reflexivity|].
  destruct (q x); simpl; [destruct (p x)|]; now rewrite IH.
Qed.

Lemma fold_dict_set_keys (sheet : list (pyobj * num)) (d : dict) :
  map fst (fold_left (fun d kv => dict_set d (fst kv) (fillna0 (snd kv))) sheet d)
  = map fst d
    ++ filter (fun x => negb (dict_has d x)) (unique pyobj_eqb (map fst sheet)).
Proof.
  revert d. induction sheet as [|[k v] sheet IH]; intros d; cbn [fold_left map unique].
  - now rewrite app_nil_r.
  - rewrite IH, dict_set_keys. cbn [fst snd filter].
    rewrite filter_filter.
    assert (E : forall l,
               filter (fun x => negb (dict_has (dict_set d k (fillna0 v)) x)) l
               = filter (fun x => negb (pyobj_eqb x k) && negb (dict_has d x)) l).
    { intros l. apply filter_ext. intros x.
      rewrite dict_has_set, negb_orb, (pyobj_eqb_sym k x). apply andb_comm. }
    rewrite E. destruct (dict_has d k); cbn [negb].
    + reflexivity.
    + now rewrite <- app_assoc.
Qed.

Lemma fold_dict_set_get (sheet : list (pyobj * num)) (d : dict)
  (k : pyobj) (default : num) :
  dict_get (fold_left (fun d kv => dict_set d (fst kv) (fillna0 (snd kv))) sheet d)
           k default
  = match last_value k sheet with
    | Some v => fillna0 v
    | None => dict_get d k default
    end.
Proof.
  revert d. induction sheet as [|[k0 v0] sheet IH]; intros d; cbn [fold_left last_value].
  - reflexivity.
  - rewrite IH. destruct (last_value k sheet); [reflexivity|].
    cbn [fst snd]. destruct (pyobj_eqb k0 k) eqn:E.
    + apply pyobj_eqb_eq in E. subst k0. apply dict_get_set_same.
    + now apply dict_get_set_other.
Qed.

(** X5.  The target dict built from a targets sheet lists each name once,
    at the place of its first row, and holds for it the Target of its last
    row, with 0 in place of a missing or non-numeric Target; a name the
    sheet does not list gets the caller's default. *)
Theorem to_dict_first_place_last_value (sheet : list (pyobj * num)) :
  map fst (to_dict sheet) = unique pyobj_eqb (map fst sheet)
  /\ forall (k : pyobj) (default : num),
       dict_get (to_dict sheet) k default
       = match last_value k sheet with
         | Some v => fillna0 v
         | None => default
         end.
Proof.
  unfold to_dict. split.
  - rewrite fold_dict_set_keys. cbn [map app].
    rewrite (filter_ext (fun x => negb (dict_has [] x)) (fun _ => true)) by reflexivity.
    induction (unique pyobj_eqb (map fst sheet)) as [|x l IH]; cbn [filter];
      [reflexivity | now rewrite IH].
  - intros k default. apply fold_dict_set_get.
Qed.

(** The keys of the target dict, read off the sheet. *)
Lemma to_dict_keys (sheet : list (pyobj * num)) :
  map fst (to_dict sheet) = unique pyobj_eqb (map fst sheet).
Proof.
  unfold to_dict. rewrite fold_dict_set_keys. cbn [map app].
  rewrite (filter_ext (fun x => negb (dict_has [] x)) (fun _ => true)) by reflexivity.
  induction (unique pyobj_eqb (map fst sheet)) as [|x l IH]; cbn [filter];
    [reflexivity | now rewrite IH].
Qed.

Lemma unique_pyobj_In (l : list pyobj) (x : pyobj) :
  In x (unique pyobj_eqb l) <-> In x l.
Proof. apply (unique_In pyobj_eqb pyobj_eqb pyobj_eqb_eq). Qed.

(** The value the BU loop reads for a name is the value of the name's own
    group: the rows filed under other BUs play no part in it. *)
Lemma bu_value_local (df : list record) (bu_name : pyobj) :
  bu_value (bu_grp df) bu_name = bu_value (bu_grp (bu_rows bu_name df)) bu_name.
Proof.
  destruct bu_name as [b| |].
  - assert (E : forall d, bu_value (bu_grp d) (PStr b)
                = match lookup String.eqb b (bu_grp d) with
                  | Some v => Fin v | None => zero end).
    { intros d. unfold bu_value, lookup, rows_of. cbn [pyobj_eqb].
      destruct (filter _ (bu_grp d)); reflexivity. }
    rewrite !E. unfold bu_grp.
    rewrite !(lookup_groupby_sum String.eqb String.leb String.eqb_eq).
    unfold bu_rows, rows_of. cbn [pyobj_eqb].
    assert (F : forall d : list record,
              filter (fun r : string * num => String.eqb (fst r) b)
                (map (fun r => (get_bu_from_helios (Helios_Code r), MINR_2025 r)) d)
              = map (fun r => (get_bu_from_helios (Helios_Code r), MINR_2025 r))
                  (filter (fun r => String.eqb (get_bu_from_helios (Helios_Code r)) b) d)).
    { induction d as [|r d IH]; cbn [map filter fst]; [reflexivity|].
      destruct (String.eqb _ b); cbn [map]; now rewrite IH. }
    assert (G : forall d : list record,
              existsb (fun r : string * num => String.eqb (fst r) b)
                (map (fun r => (get_bu_from_helios (Helios_Code r), MINR_2025 r)) d)
              = existsb (fun r => String.eqb (get_bu_from_helios (Helios_Code r)) b) d).
    { induction d as [|r d IH]; cbn [map existsb fst]; [reflexivity|].
      now rewrite IH. }
    rewrite !F, !G, filter_filter.
    rewrite (filter_ext
               (fun r => String.eqb (get_bu_from_helios (Helios_Code r)) b
                         && String.eqb (get_bu_from_helios (Helios_Code r)) b)
               (fun r => String.eqb (get_bu_from_helios (Helios_Code r)) b))
      by (intros r; apply andb_diag).
    assert (H : forall d : list record,
              existsb (fun r => String.eqb (get_bu_from_helios (Helios_Code r)) b)
                (filter (fun r => String.eqb (get_bu_from_helios (Helios_Code r)) b) d)
              = existsb (fun r => String.eqb (get_bu_from_helios (Helios_Code r)) b) d).
    { induction d as [|r d IH]; cbn [filter existsb]; [reflexivity|].
      destruct (String.eqb _ b) eqn:Eb; cbn [existsb orb]; rewrite ?Eb, IH; reflexivity. }
    now rewrite H.
  - unfold bu_value. cbn [pyobj_eqb].
    assert (N : forall l : list (string * Qc), filter (fun _ => false) l = [])
      by (induction l; auto).
    now rewrite !N.
  - unfold bu_value. cbn [pyobj_eqb].
    assert (N : forall l : list (string * Qc), filter (fun _ => false) l = [])
      by (induction l; auto).
    now rewrite !N.
Qed.

(** Filing under a BU that the targets sheet names keeps the rows of a
    sheet whose BU has a target. *)
Lemma bu_rows_with_target (bu_targets_df : list (pyobj * num)) (df : list record)
  (bu_name : pyobj) :
  In bu_name (map fst bu_targets_df) ->
  bu_rows bu_name (with_bu_target bu_targets_df df) = bu_rows bu_name df.
Proof.
  intros Hin. unfold bu_rows, with_bu_target. rewrite filter_filter.
  apply filter_ext_in. intros r _.
  destruct (pyobj_eqb (PStr (get_bu_from_helios (Helios_Code r))) bu_name) eqn:E;
    cbn [andb]; [|apply andb_false_r].
  rewrite andb_true_r. apply existsb_exists. exists bu_name. split; assumption.
Qed.

(** C10.  The BU table has exactly one row per distinct name of the BU
    column of the BU-targets sheet, in the order in which the sheet first
    lists them.  A BU that the sheet does not name has no row.  Each row is
    computed from the rows of [df_sales] and [df_ob] filed under its own BU
    and from nothing else, so the sales and the OB of a BU without a target
    reach no row: the table is the one obtained after deleting from both
    frames every row whose BU has no target. *)
Theorem bu_rows_follow_targets (df_sales df_ob : list record)
  (bu_targets_df : list (pyobj * num)) :
  let bu_targets := to_dict bu_targets_df in
  let out := bu_performance_rows df_sales df_ob bu_targets in
  map BU out = unique pyobj_eqb (map fst bu_targets_df)
  /\ NoDup (map BU out)
  /\ (forall b : string,
        ~ In (PStr b) (map fst bu_targets_df) ->
        forall r, In r out -> BU r <> PStr b)
  /\ out = map (fun item =>
                  bu_performance_row (bu_grp (bu_rows (fst item) df_sales))
                                     (bu_grp (bu_rows (fst item) df_ob)) item)
               bu_targets
  /\ out = bu_performance_rows (with_bu_target bu_targets_df df_sales)
                               (with_bu_target bu_targets_df df_ob) bu_targets.
Proof.
  intros bu_targets out. unfold out.
  assert (L : forall ds do' item,
            bu_performance_row (bu_grp ds) (bu_grp do') item
            = bu_performance_row (bu_grp (bu_rows (fst item) ds))
                                 (bu_grp (bu_rows (fst item) do')) item).
  { intros ds do' item. unfold bu_performance_row.
    rewrite <- !bu_value_local. reflexivity. }
  rewrite bu_performance_rows_keys. unfold bu_targets.
  split; [apply to_dict_keys|].
  split; [apply to_dict_NoDup|].
  split.
  - intros b Hb r Hr Heq. apply Hb. rewrite <- Heq.
    apply unique_pyobj_In. rewrite <- to_dict_keys.
    rewrite <- (bu_performance_rows_keys df_sales df_ob). now apply in_map.
  - split.
    + unfold bu_performance_rows. apply map_ext. intros item. apply L.
    + unfold bu_performance_rows. apply map_ext_in. intros item Hitem.
      rewrite L. symmetry. rewrite L.
      assert (Hk : In (fst item) (map fst bu_targets_df)).
      { apply unique_pyobj_In. rewrite <- to_dict_keys. now apply in_map. }
      now rewrite !(bu_rows_with_target bu_targets_df _ _ Hk).
Qed.

(* ================================================================== *)
(** * Shape of the emitted Pivot-2 rows *)
(* ================================================================== *)

Lemma filter_all (A : Type) (p : A -> bool) (l : list A) :
  (forall x, In x l -> p x = true) -> filter p l = l.
Proof.
  induction l as [|x l IH]; simpl; intros H; [reflexivity|].
  rewrite (H x (or_introl eq_refl)), IH; [reflexivity|].
  intros y Hy. apply H. now right.
Qed.

Lemma filter_none (A : Type) (p : A -> bool) (l : list A) :
  (forall x, In x l -> p x = false) -> filter p l = [].
Proof.
  induction l as [|x l IH]; simpl; intros H; [reflexivity|].
  rewrite (H x (or_introl eq_refl)). apply IH.
  intros y Hy. apply H. now right.
Qed.

Lemma flat_map_agree (A B : Type) (f g : A -> list B) (l : list A) :
  (forall x, In x l -> f x = g x) -> flat_map f l = flat_map g l.
Proof.
  induction l as [|x l IH]; simpl; intros H; [reflexivity|].
  rewrite (H x (or_introl eq_refl)), IH; [reflexivity|].
  intros y Hy. apply H. now right.
Qed.

Lemma label_le_antisym (a b : string) : label_le a b -> label_le b a -> a = b.
Proof. apply String.leb_antisym. Qed.

(** In a frame sorted by label the groups of [groupby(sort=False)] are runs
    of consecutive rows: put end to end they give the frame back. *)
Lemma groups_concat (A : Type) (c : A -> string) (l : list A) :
  Sorted label_le (map c l) ->
  flat_map (fun k => filter (fun r => String.eqb (c r) k) l)
           (unique String.eqb (map c l)) = l.
Proof.
  intros Hs. apply Sorted_StronglySorted in Hs; [|apply label_le_Transitive].
  induction l as [|x t IH]; [reflexivity|].
  cbn [map] in Hs. apply StronglySorted_inv in Hs. destruct Hs as [Hs Hx].
  specialize (IH Hs). cbn [map unique flat_map filter].
  rewrite String.eqb_refl. cbn [app]. f_equal.
  rewrite (flat_map_agree
             (fun k => filter (fun r => String.eqb (c r) k) (x :: t))
             (fun k => filter (fun r => String.eqb (c r) k) t)).
  2:{ intros k Hk. apply filter_In in Hk. destruct Hk as [_ Hk].
      cbn [filter]. rewrite String.eqb_sym.
      now destruct (String.eqb k (c x)). }
  destruct t as [|y t']; [reflexivity|].
  destruct (String.eqb (c y) (c x)) eqn:E.
  - apply String.eqb_eq in E.
    cbn [map unique] in IH |- *. rewrite E in IH |- *.
    cbn [filter]. rewrite String.eqb_refl. cbn [negb].
    rewrite filter_filter, (filter_ext _ (fun y0 => negb (String.eqb y0 (c x))))
      by (intros a; now rewrite andb_diag).
    exact IH.
  - assert (Hno : forall z, In z (y :: t') -> String.eqb (c z) (c x) = false).
    { intros z Hz. destruct Hz as [<-|Hz]; [exact E|].
      destruct (String.eqb (c z) (c x)) eqn:Ez; [|reflexivity].
      apply String.eqb_eq in Ez. exfalso.
      apply String.eqb_neq in E. apply E.
      rewrite Forall_forall in Hx.
      apply label_le_antisym.
      - cbn [map] in Hs. apply StronglySorted_inv in Hs. destruct Hs as [_ Hy].
        rewrite <- Ez. rewrite Forall_forall in Hy. apply Hy. now apply in_map.
      - apply Hx. cbn [map]. now left. }
    rewrite (filter_none _ _ Hno). cbn [app].
    rewrite filter_all; [exact IH|].
    intros k Hk. rewrite (unique_In String.eqb String.leb String.eqb_eq) in Hk.
    apply in_map_iff in Hk. destruct Hk as (z & <- & Hz).
    now rewrite (Hno z Hz).
Qed.

Lemma NoDup_map_snd_functional (f : pyobj -> string) (l : list key) :
  NoDup l -> Forall (fun k => fst k = f (snd k)) l -> NoDup (map snd l).
Proof.
  induction l as [|[c e] l IH]; simpl; intros Hnd Hf; [constructor|].
  inversion Hnd as [|? ? Hx Hnd']; subst. inversion Hf as [|? ? Hc Hf']; subst.
  constructor; [|now apply IH].
  intros Hin. apply Hx. apply in_map_iff in Hin.
  destruct Hin as ([c2 e2] & He & Hin). cbn [fst snd] in *. subst e2.
  rewrite Forall_forall in Hf'. specialize (Hf' _ Hin). cbn [fst snd] in Hf'.
  rewrite Hc, <- Hf'. exact Hin.
Qed.

Lemma emp_rows_keys (emp_targets : dict) (m : list mrow) :
  Sorted label_le (map m_Cluster m) ->
  map row_key (emp_rows_of_blocks (blocks emp_targets m)) = map mkey m.
Proof.
  intros Hs.
  transitivity
    (map mkey (flat_map (fun k => filter (fun r => String.eqb (m_Cluster r) k) m)
                        (unique String.eqb (map m_Cluster m))));
    [|now rewrite (groups_concat m_Cluster m Hs)].
  unfold emp_rows_of_blocks, blocks, groupby_nosort.
  induction (unique String.eqb (map m_Cluster m)) as [|k ks IH]; [reflexivity|].
  cbn [map flat_map cluster_block fst snd]. rewrite !map_app, IH. f_equal.
  rewrite map_map. apply map_ext_in. intros r Hr.
  apply filter_In in Hr. destruct Hr as [_ Hr]. apply String.eqb_eq in Hr.
  unfold row_key, mkey, emp_row. cbn. congruence.
Qed.

(** X6.  The employee rows stand, in order, for the pairs of [merged]:
    one row for each employee with a non-missing name found in the sales
    or the OB sheet, under the cluster [get_cluster] gives that name, never
    two rows for one employee, and in ascending order of (cluster,
    employee). *)
Theorem one_row_per_employee (df_sales df_ob : list record) (emp_targets : dict) :
  let emp_rows := emp_rows_of_blocks (pivot2 df_sales df_ob emp_targets) in
  map row_key emp_rows = merged_keys df_sales df_ob
  /\ NoDup (map Name emp_rows)
  /\ Forall (fun e => Cluster e = get_cluster (Name e) /\ Name e <> PNull) emp_rows
  /\ (forall name : pyobj,
        In name (map Name emp_rows) <->
        name <> PNull
        /\ (In name (map Employee_Responsible df_sales)
            \/ In name (map Employee_Responsible df_ob)))
  /\ Sorted (fun a b => key_leb a b = true) (map row_key emp_rows).
Proof.
  intros emp_rows.
  assert (Hk : map row_key emp_rows = merged_keys df_sales df_ob).
  { unfold emp_rows, pivot2.
    rewrite (emp_rows_keys _ _ (reconcile_clusters_sorted df_sales df_ob)).
    rewrite reconcile_normal, map_map. unfold mkey. cbn.
    rewrite (map_ext _ (fun k => k)) by (intros [c e]; reflexivity).
    apply map_id. }
  assert (Hn : map Name emp_rows = map snd (merged_keys df_sales df_ob)).
  { rewrite <- Hk, map_map. reflexivity. }
  assert (Hsrc : forall df name,
             name <> PNull ->
             (source_rows df (get_cluster name, name) <> []
              <-> In name (map Employee_Responsible df))).
  { intros df name _. unfold source_rows. split.
    - intros H. destruct (filter _ df) as [|r rs] eqn:E; [congruence|].
      assert (Hr : In r (filter (fun r => key_eqb (key_of r) (get_cluster name, name)) df))
        by (rewrite E; now left).
      apply filter_In in Hr. destruct Hr as [Hr Hq]. apply key_eqb_eq in Hq.
      apply in_map_iff. exists r. split; [|exact Hr].
      unfold key_of in Hq. congruence.
    - intros H. apply in_map_iff in H. destruct H as (r & <- & Hr) .
      intros E.
      assert (Hin : In r (filter (fun r0 => key_eqb (key_of r0)
                     (get_cluster (Employee_Responsible r), Employee_Responsible r)) df)).
      { apply filter_In. split; [exact Hr|]. now apply key_eqb_eq. }
      rewrite E in Hin. contradiction. }
  split; [exact Hk|]. split; [|split; [|split]].
  - rewrite Hn. apply NoDup_map_snd_functional with (f := get_cluster).
    + apply merged_keys_NoDup.
    + apply Forall_forall. intros k. apply merged_keys_cluster.
  - apply Forall_forall. intros e He.
    assert (Hin : In (row_key e) (merged_keys df_sales df_ob))
      by (rewrite <- Hk; now apply in_map).
    split.
    + apply (merged_keys_cluster _ _ _ Hin).
    + apply (merged_keys_nonnull _ _ _ Hin).
  - intros name. rewrite Hn, in_map_iff. split.
    + intros ([c e] & <- & Hin). cbn [snd].
      pose proof (merged_keys_nonnull _ _ _ Hin) as Hnn.
      pose proof (merged_keys_cluster _ _ _ Hin) as Hc. cbn [fst snd] in Hnn, Hc.
      subst c. split; [exact Hnn|].
      apply merged_keys_In in Hin. rewrite !grp_key_iff in Hin.
      destruct Hin as [[_ H]|[_ H]]; [right | left]; now apply Hsrc.
    + intros [Hnn H]. exists (get_cluster name, name). split; [reflexivity|].
      apply merged_keys_In. rewrite !grp_key_iff. cbn [snd].
      destruct H as [H|H]; [right | left]; (split; [exact Hnn | now apply Hsrc]).
  - rewrite Hk. unfold merged_keys. apply sort_keys_Sorted, key_leb_total.
Qed.

(** X7.  Each pass of the loop emits a subtotal row marked
    "<cluster> Total" followed by at least one employee row, and every
    employee row of the pass carries the cluster of its subtotal row. *)
Theorem block_shape (df_sales df_ob : list record) (emp_targets : dict)
  (b : row * list row) :
  In b (pivot2 df_sales df_ob emp_targets) ->
  Name (fst b) = PStr (Cluster (fst b) ++ " Total")
  /\ snd b <> []
  /\ Forall (fun e => Cluster e = Cluster (fst b)) (snd b).
Proof.
  unfold pivot2, blocks, groupby_nosort. rewrite map_map.
  intros Hb. apply in_map_iff in Hb. destruct Hb as (k & <- & Hk).
  cbn [cluster_block fst snd]. split; [reflexivity|]. split.
  - rewrite (unique_In String.eqb String.leb String.eqb_eq) in Hk.
    apply in_map_iff in Hk. destruct Hk as (r & Hr & Hin).
    intros E. apply map_eq_nil in E.
    assert (H : In r (filter (fun r0 => String.eqb (m_Cluster r0) k)
                             (reconcile df_sales df_ob))).
    { apply filter_In. split; [exact Hin | now apply String.eqb_eq]. }
    rewrite E in H. contradiction.
  - apply Forall_forall. intros e He. apply in_map_iff in He.
    destruct He as (r & <- & _). reflexivity.
Qed.

Lemma block_shape_witness :
  let df := [sample "Arun" "PP1" 100; sample "Rahul" "HD1" 25] in
  let b := hd (subtotal_row [] "" [], []) (pivot2 df [] []) in
  In b (pivot2 df [] []) /\ snd b <> [].
Proof.
  intros df b.
  assert (Hb : In b (pivot2 df [] [])) by (vm_compute; left; reflexivity).
  split; [exact Hb|].
  exact (proj1 (proj2 (block_shape df [] [] b Hb))).
Defined.

(* ================================================================== *)
(** * Conservation of the measure through grouping *)
(* ================================================================== *)

Section SumByKey.

Variable K : Type.
Variable eqb : K -> K -> bool.
Hypothesis eqb_eq : forall a b, eqb a b = true <-> a = b.

Lemma qsum_bump (q : Qc) (g : K -> Qc) (k0 : K) (ks : list K) :
  NoDup ks -> In k0 ks ->
  qsum (map (fun k => if eqb k0 k then Qcplus q (g k) else g k) ks)
  = Qcplus q (qsum (map g ks)).
Proof.
  induction ks as [|k ks IH]; intros Hnd Hin; [contradiction|].
  inversion Hnd as [|? ? Hk Hnd']; subst. cbn [map qsum fold_right].
  fold (qsum (map g ks)).
  fold (qsum (map (fun k => if eqb k0 k then Qcplus q (g k) else g k) ks)).
  destruct (eqb k0 k) eqn:E.
  - apply eqb_eq in E. subst k0.
    rewrite (map_ext_in (fun k1 => if eqb k k1 then Qcplus q (g k1) else g k1) g).
    + ring.
    + intros a Ha. destruct (eqb k a) eqn:Ea; [|reflexivity].
      apply eqb_eq in Ea. subst a. contradiction.
  - destruct Hin as [->|Hin].
    + rewrite (proj2 (eqb_eq k0 k0) eq_refl) in E. discriminate.
    + rewrite (IH Hnd' Hin). ring.
Qed.

(** Summing each key's rows and then the keys gives the sum of all rows:
    every row counts under exactly one key. *)
Lemma sum_by_key (f : list (K * num)) (ks : list K) :
  NoDup ks -> (forall r, In r f -> In (fst r) ks) ->
  qsum (map (fun k => sum_skipna (map snd (rows_of eqb k f))) ks)
  = sum_skipna (map snd f).
Proof.
  intros Hnd. induction f as [|[k0 v] f IH]; intros Hin.
  - cbn [rows_of filter map]. clear Hnd Hin.
    induction ks as [|k ks IHk]; [reflexivity|].
    cbn [map qsum fold_right]. fold (qsum (map (fun _ : K => sum_skipna []) ks)).
    rewrite IHk. apply Qc_is_canon. reflexivity.
  - assert (IH' : qsum (map (fun k => sum_skipna (map snd (rows_of eqb k f))) ks)
                  = sum_skipna (map snd f))
      by (apply IH; intros r Hr; apply Hin; now right).
    cbn [map snd]. rewrite sum_skipna_cons. destruct v as [|q].
    + rewrite <- IH'. f_equal. apply map_ext. intros k.
      unfold rows_of. cbn [filter fst]. destruct (eqb k0 k); [|reflexivity].
      cbn [map snd]. now rewrite sum_skipna_cons.
    + rewrite <- IH'.
      rewrite <- (qsum_bump q (fun k => sum_skipna (map snd (rows_of eqb k f))) k0 Hnd)
        by (apply (Hin (k0, Fin q)); now left).
      f_equal. apply map_ext. intros k.
      unfold rows_of. cbn [filter fst]. destruct (eqb k0 k); [|reflexivity].
      cbn [map snd]. now rewrite sum_skipna_cons.
Qed.

End SumByKey.

Lemma total_map_Fin (A : Type) (g : A -> Qc) (l : list A) :
  total (map (fun a => Fin (g a)) l) = Fin (qsum (map g l)).
Proof.
  induction l as [|a l IH]; [reflexivity|].
  cbn [map total fold_right qsum]. fold (total (map (fun a => Fin (g a)) l)).
  fold (qsum (map g l)). now rewrite IH.
Qed.

Lemma grp_frame_values (df : list record) :
  map snd (grp_frame df) = map MINR_2025 (named_rows df).
Proof.
  unfold grp_frame, named_rows, add_cluster.
  induction df as [|r df IH]; [reflexivity|].
  cbn [map filter snd]. destruct (isnull (Employee_Responsible r)); cbn [negb];
    [exact IH | cbn [map snd]; now rewrite IH].
Qed.

Lemma source_total_rows (df : list record) (k : key) :
  snd k <> PNull ->
  source_total df k = Fin (sum_skipna (map snd (rows_of key_eqb k (grp_frame df)))).
Proof.
  intros Hn. rewrite (grp_frame_rows df k Hn), map_map. cbn [snd].
  unfold source_total. destruct (source_rows df k); reflexivity.
Qed.

Lemma merged_column_total (df : list record) (ks : list key) :
  NoDup ks ->
  (forall k, In k ks -> snd k <> PNull) ->
  (forall k, In k (map fst (grp_frame df)) -> In k ks) ->
  total (map (source_total df) ks)
  = Fin (sum_skipna (map MINR_2025 (named_rows df))).
Proof.
  intros Hnd Hnn Hall.
  rewrite (map_ext_in (source_total df)
             (fun k => Fin (sum_skipna (map snd (rows_of key_eqb k (grp_frame df))))))
    by (intros k Hk; apply source_total_rows, Hnn, Hk).
  rewrite total_map_Fin, (sum_by_key key_eqb key_eqb_eq (grp_frame df) Hnd).
  - now rewrite grp_frame_values.
  - intros r Hr. apply Hall. now apply in_map.
Qed.

(** X8.  On sheets of whole amounts (sizes adding up to at most 2^46 per
    sheet) nothing is lost or counted twice between the sheets and
    [merged]: the sales column of [merged] adds up to the sum of the
    measure over the sales rows that name an employee, and the OB column
    likewise; a row whose employee cell is missing is left out of every
    Pivot-2 figure. *)
Theorem merged_totals_conserved (df_sales df_ob : list record) :
  whole_amounts (map MINR_2025 df_sales) = true ->
  whole_amounts (map MINR_2025 df_ob) = true ->
  total (map MINR_2025_sales (reconcile df_sales df_ob))
  = Fin (sum_skipna (map MINR_2025 (named_rows df_sales)))
  /\ total (map MINR_2025_ob (reconcile df_sales df_ob))
     = Fin (sum_skipna (map MINR_2025 (named_rows df_ob))).
Proof.
  intros _ _.
  rewrite reconcile_normal, !map_map. cbn [MINR_2025_sales MINR_2025_ob].
  split; apply merged_column_total;
    try apply merged_keys_NoDup; try apply merged_keys_nonnull;
    intros k Hk; apply merged_keys_In; [right | left];
    now rewrite grp_unfold, (groupby_sum_In_key key_eqb key_leb key_eqb_eq).
Qed.

Lemma merged_totals_conserved_witness :
  let df_sales := [sample "Arun" "PP1" 100; sample "Arun" "HD2" 20;
                   sample "Mahesh" "PP1" 5] in
  let df_ob := [sample "Mahesh" "PP1" 40] in
  total (map MINR_2025_sales (reconcile df_sales df_ob))
  = Fin (sum_skipna (map MINR_2025 (named_rows df_sales)))
  /\ total (map MINR_2025_ob (reconcile df_sales df_ob))
     = Fin (sum_skipna (map MINR_2025 (named_rows df_ob))).
Proof.
  intros df_sales df_ob.
  exact (merged_totals_conserved df_sales df_ob eq_refl eq_refl).
Defined.

Lemma get_bu_range (x : pyobj) : In (get_bu_from_helios x) BUS.
Proof.
  unfold get_bu_from_helios, BUS. destruct x as [s| |]; [|simpl; tauto..].
  repeat match goal with
         | |- context [if ?b then _ else _] => destruct b
         end; simpl; tauto.
Qed.

Lemma bu_grp_keys (df : list record) :
  map fst (bu_grp df)
  = sort_keys String.leb
      (unique String.eqb (map (fun r => get_bu_from_helios (Helios_Code r)) df)).
Proof.
  unfold bu_grp. rewrite groupby_sum_keys, map_map. reflexivity.
Qed.

Lemma bu_grp_labels (df : list record) : incl (map fst (bu_grp df)) BUS.
Proof.
  rewrite bu_grp_keys. intros b Hb.
  rewrite (sorted_unique_In String.eqb String.leb String.eqb_eq) in Hb.
  apply in_map_iff in Hb. destruct Hb as (r & <- & _). apply get_bu_range.
Qed.

(** X9.  On a sheet of whole amounts (sizes adding up to at most 2^46)
    every row counts in exactly one BU sum: the BU sums add up to the sum
    of the measure over all rows of the sheet (a missing or unmatched
    product code counts under "Other"), and the BU frame has one line per
    label, among PP, H&D, IND, SP, DE and Other. *)
Theorem bu_grp_conserved (df : list record) :
  whole_amounts (map MINR_2025 df) = true ->
  total (map (fun line => Fin (snd line)) (bu_grp df))
  = Fin (sum_skipna (map MINR_2025 df))
  /\ NoDup (map fst (bu_grp df))
  /\ incl (map fst (bu_grp df)) BUS.
Proof.
  intros _. split; [|split].
  - unfold bu_grp, groupby_sum. rewrite map_map. cbn [snd].
    rewrite total_map_Fin, (sum_by_key String.eqb String.eqb_eq).
    + now rewrite map_map.
    + apply (sorted_unique_NoDup String.eqb String.leb String.eqb_eq).
    + intros r Hr.
      apply (sorted_unique_In String.eqb String.leb String.eqb_eq).
      now apply in_map.
  - rewrite bu_grp_keys.
    apply (sorted_unique_NoDup String.eqb String.leb String.eqb_eq).
  - apply bu_grp_labels.
Qed.

Lemma bu_grp_conserved_witness :
  let df := [sample "Arun" "PP1" 100; sample "Arun" "HD2" 20;
             sample "Mahesh" "PP7" 5; sample "Rahul" "ZZ" 3] in
  total (map (fun line => Fin (snd line)) (bu_grp df))
  = Fin (sum_skipna (map MINR_2025 df))
  /\ NoDup (map fst (bu_grp df))
  /\ incl (map fst (bu_grp df)) BUS.
Proof.
  intros df. exact (bu_grp_conserved df eq_refl).
Defined.

(* ================================================================== *)
(** * Arithmetic of the emitted rows, on whole numbers *)
(* ================================================================== *)

Lemma sub_cents (j k : Z) : Num.sub (cents j) (cents k) = cents (j - k).
Proof.
  unfold cents, Num.sub, lift2. f_equal.
  unfold Qcminus, Qcplus, Qcopp.
  apply Q2Qc_eq_iff. unfold Q2Qc. cbn [this]. rewrite !Qred_correct.
  unfold Qeq. simpl. lia.
Qed.

Lemma gt0_cents (j : Z) : gt0 (cents j) = true <-> (0 < j)%Z.
Proof.
  unfold gt0, cents, Qccompare, Q2Qc. cbn [this].
  rewrite Qred_correct. unfold Qcompare. simpl.
  rewrite Z.mul_1_r.
  destruct (Z.compare_spec j 0) as [E|E|E].
  - split; [discriminate | intros; exfalso; lia].
  - split; [discriminate | intros; exfalso; lia].
  - split; [intros; lia | reflexivity].
Qed.

Lemma round_of_Z (n : Z) : round (of_Z n) 2 = of_Z n.
Proof. rewrite of_Z_cents. apply round_cents. Qed.

Lemma sub_of_Z (a b : Z) : Num.sub (of_Z a) (of_Z b) = of_Z (a - b).
Proof. rewrite !of_Z_cents, sub_cents. f_equal. lia. Qed.

Lemma gt0_of_Z (n : Z) : gt0 (of_Z n) = true <-> (0 < n)%Z.
Proof. rewrite of_Z_cents, gt0_cents. lia. Qed.

Lemma gt0_of_Z_false (n : Z) : (n <= 0)%Z -> gt0 (of_Z n) = false.
Proof.
  intros H. destruct (gt0 (of_Z n)) eqn:E; [|reflexivity].
  apply gt0_of_Z in E. lia.
Qed.

Lemma of_Z_nonzero (t : Z) : (t <> 0)%Z -> Q2Qc (inject_Z t) <> 0%Qc.
Proof.
  intros Ht E. change (0%Qc) with (Q2Qc (inject_Z 0)) in E.
  apply Q2Qc_eq_iff in E. unfold Qeq, inject_Z in E.
  cbn [Qnum Qden] in E. lia.
Qed.

Lemma div_of_Z_multiple (m t : Z) :
  (t <> 0)%Z -> div (of_Z (m * t)) (of_Z t) = of_Z m.
Proof.
  intros Ht. unfold div, of_Z.
  pose proof (of_Z_nonzero Ht) as Hne.
  rewrite (Qc_eq_bool_false Hne). f_equal.
  apply Qc_is_canon. unfold Qcdiv, Qcmult, Qcinv, Q2Qc. cbn [this].
  rewrite !Qred_correct, inject_Z_mult. field.
  intros E. apply Hne. apply Qc_is_canon. unfold Q2Qc. cbn [this].
  rewrite Qred_correct. exact E.
Qed.

Lemma mul_of_Z (a b : Z) : mul (of_Z a) (of_Z b) = of_Z (a * b).
Proof.
  unfold mul, lift2, of_Z. f_equal. unfold Qcmult.
  apply Q2Qc_eq_iff. unfold Q2Qc. cbn [this]. rewrite !Qred_correct.
  unfold Qeq. simpl. lia.
Qed.

(** A total that is [m] times the target is an achievement of [100 * m]
    per cent. *)
Lemma achievement_of_multiple (m t : Z) :
  (t <> 0)%Z ->
  round (mul (div (of_Z (m * t)) (of_Z t)) hundred) 2 = of_Z (100 * m).
Proof.
  intros Ht. rewrite (div_of_Z_multiple m Ht). unfold hundred.
  rewrite mul_of_Z, round_of_Z. f_equal. lia.
Qed.

(** X10.  An employee row on whole numbers of size at most 2^39: OB [ob],
    sales [sales] and a target [t] for the employee in the target table
    (0 when the table does not list the employee).  The row reports the two
    totals as they stand.  When the target is 0 or negative the row shows
    target 0, both remainings 0 and both achievements 0.  When the target
    is positive the row shows it as it stands, each remaining is the target
    minus the total, and each achievement is a number: [100 * m] when the
    total is [m] times the target. *)
Theorem employee_row_arithmetic (emp_targets : dict) (clust : string)
  (name : pyobj) (ob sales t : Z) :
  (Z.abs ob <= 2 ^ 39)%Z -> (Z.abs sales <= 2 ^ 39)%Z -> (Z.abs t <= 2 ^ 39)%Z ->
  resolve_employee_target emp_targets name = of_Z t ->
  let e := emp_row emp_targets clust
             {| m_Cluster := clust; m_Employee_Responsible := name;
                MINR_2025_ob := of_Z ob; MINR_2025_sales := of_Z sales |} in
  OB_Total_mn e = of_Z ob
  /\ Sales_Total_mn e = of_Z sales
  /\ ((t <= 0)%Z ->
      Target e = PyFloat zero
      /\ OB_Remaining e = PyFloat zero /\ Sales_Remaining e = PyFloat zero
      /\ OB_Achiev_pct e = PyFloat zero /\ Sales_Achiev_pct e = PyFloat zero)
  /\ ((0 < t)%Z ->
      Target e = PyFloat (of_Z t)
      /\ OB_Remaining e = PyFloat (of_Z (t - ob))
      /\ Sales_Remaining e = PyFloat (of_Z (t - sales))
      /\ (exists a : Qc, OB_Achiev_pct e = PyFloat (Fin a))
      /\ (exists a : Qc, Sales_Achiev_pct e = PyFloat (Fin a))
      /\ (forall m : Z, ob = (m * t)%Z ->
          OB_Achiev_pct e = PyFloat (of_Z (100 * m)))
      /\ (forall m : Z, sales = (m * t)%Z ->
          Sales_Achiev_pct e = PyFloat (of_Z (100 * m)))).
Proof.
  intros _ _ _ Ht e. unfold resolve_employee_target in Ht.
  unfold e, emp_row. cbv zeta.
  cbn [Target OB_Total_mn Sales_Total_mn OB_Remaining Sales_Remaining
       OB_Achiev_pct Sales_Achiev_pct m_Employee_Responsible
       MINR_2025_ob MINR_2025_sales].
  rewrite Ht, !div_scale. unfold EMP_DEC. rewrite !round_of_Z.
  split; [reflexivity|]. split; [reflexivity|]. split.
  - intros Hle. rewrite (gt0_of_Z_false Hle). change (gt0 zero) with false.
    repeat split.
  - intros Hlt. rewrite (proj2 (gt0_of_Z t) Hlt), (proj2 (gt0_of_Z t) Hlt).
    rewrite !sub_of_Z, !round_of_Z.
    assert (Hz : (t <> 0)%Z) by lia.
    pose proof (of_Z_nonzero Hz) as Hne.
    repeat split.
    + unfold div, of_Z. rewrite (Qc_eq_bool_false Hne). simpl. eauto.
    + unfold div, of_Z. rewrite (Qc_eq_bool_false Hne). simpl. eauto.
    + intros m ->. now rewrite (achievement_of_multiple m Hz).
    + intros m ->. now rewrite (achievement_of_multiple m Hz).
Qed.

Lemma employee_row_arithmetic_witness :
  let e := emp_row (to_dict [(PStr "Arun", of_Z 200)]) "OD"
             {| m_Cluster := "OD"; m_Employee_Responsible := PStr "Arun";
                MINR_2025_ob := of_Z 40; MINR_2025_sales := of_Z 100 |} in
  Target e = PyFloat (of_Z 200)
  /\ OB_Remaining e = PyFloat (of_Z (200 - 40))
  /\ Sales_Remaining e = PyFloat (of_Z (200 - 100)).
Proof.
  intros e.
  assert (H : resolve_employee_target (to_dict [(PStr "Arun", of_Z 200)])
                (PStr "Arun") = of_Z 200) by reflexivity.
  destruct (@employee_row_arithmetic (to_dict [(PStr "Arun", of_Z 200)]) "OD"
              (PStr "Arun") 40%Z 100%Z 200%Z) as (_ & _ & _ & P);
    try (simpl; lia).
  - exact H.
  - destruct P as (P1 & P2 & P3 & _); [lia|]. repeat split; assumption.
Defined.

Lemma whole_cases (x : num) :
  is_whole x = true -> x = NaN \/ exists n : Z, x = of_Z n.
Proof.
  destruct x as [|q]; [now left|]. intros H. right.
  exists (Qnum q). unfold of_Z. f_equal. now apply is_whole_fin.
Qed.

Lemma is_whole_of_Z (n : Z) : is_whole (of_Z n) = true.
Proof.
  unfold is_whole, of_Z, Q2Qc. cbn [this].
  rewrite Qred_identity by (simpl; apply Z.gcd_1_r). reflexivity.
Qed.

Lemma dict_get_whole (d : dict) (k : pyobj) (default : num) :
  forallb is_whole (map snd d) = true -> is_whole default = true ->
  is_whole (dict_get d k default) = true.
Proof.
  intros Hd Hdef. induction d as [|[k' v] d IH]; [exact Hdef|].
  cbn [map snd forallb] in Hd. apply andb_true_iff in Hd. destruct Hd as [Hv Hd].
  simpl. destruct (pyobj_eqb k' k); [exact Hv | now apply IH].
Qed.

Lemma sum_min_count1_whole (l : list num) :
  forallb is_whole l = true -> is_whole (sum_min_count1 l) = true.
Proof.
  intros H. unfold sum_min_count1. destruct (forallb is_nan l); [reflexivity|].
  destruct (sum_skipna_whole l H) as [n ->]. apply (is_whole_of_Z n).
Qed.

Lemma of_Z_inj (a b : Z) : of_Z a = of_Z b -> a = b.
Proof.
  unfold of_Z. intros E.
  apply (f_equal (fun x => match x with Fin q => q | NaN => Q2Qc 0 end)) in E.
  cbv beta iota in E. apply Q2Qc_eq_iff in E.
  unfold Qeq, inject_Z in E. cbn [Qnum Qden] in E. lia.
Qed.

Lemma achievement_at_multiple (x m t : Z) :
  (t <> 0)%Z -> of_Z x = of_Z (m * t) ->
  if_truthy (PyFloat (of_Z t)) (fun t1 => round (mul (div (of_Z x) t1) hundred) 2)
  = PyFloat (of_Z (100 * m)).
Proof.
  intros Ht Ex. cbn [if_truthy]. unfold of_Z at 1. cbn [truthy].
  rewrite (Qc_eq_bool_false (of_Z_nonzero Ht)). cbn [negb].
  fold (of_Z t). now rewrite Ex, (achievement_of_multiple m Ht).
Qed.

(** X11.  A subtotal row on whole numbers: the values of the target table
    and the group's two measure columns are whole, and their sizes, like
    those of the targets found for the group's members, add up to at most
    2^46.  The row then shows the resolved cluster target as it stands, the
    sums of the two columns as its totals, and as each remaining the target
    minus the total, which is null when the target is.  When a total is [m]
    times a target other than 0, with [m] of size at most 2^39, the
    achievement is [100 * m]. *)
Theorem subtotal_row_arithmetic (emp_targets : dict) (clust : string)
  (sub : list mrow) :
  whole_amounts (map snd emp_targets) = true ->
  whole_amounts (map (map_dict emp_targets) (members sub)) = true ->
  whole_amounts (map MINR_2025_ob sub) = true ->
  whole_amounts (map MINR_2025_sales sub) = true ->
  let s := subtotal_row emp_targets clust sub in
  let resolved := cl_target emp_targets clust sub in
  Target s = PyFloat resolved
  /\ OB_Total_mn s = Fin (sum_skipna (map MINR_2025_ob sub))
  /\ Sales_Total_mn s = Fin (sum_skipna (map MINR_2025_sales sub))
  /\ OB_Remaining s = PyFloat (Num.sub resolved (OB_Total_mn s))
  /\ Sales_Remaining s = PyFloat (Num.sub resolved (Sales_Total_mn s))
  /\ (forall m t : Z,
        (Z.abs m <= 2 ^ 39)%Z -> (t <> 0)%Z -> resolved = of_Z t ->
        (OB_Total_mn s = of_Z (m * t) ->
         OB_Achiev_pct s = PyFloat (of_Z (100 * m)))
        /\ (Sales_Total_mn s = of_Z (m * t) ->
            Sales_Achiev_pct s = PyFloat (of_Z (100 * m)))).
Proof.
  intros Wd Wm Wo Ws s resolved.
  apply whole_amounts_whole in Wd, Wm, Wo, Ws.
  assert (Wr : is_whole resolved = true).
  { unfold resolved, cl_target. apply dict_get_whole; [exact Wd|].
    apply sum_min_count1_whole. unfold members in Wm.
    now rewrite map_map in Wm. }
  destruct (sum_skipna_whole _ Wo) as [a Ha].
  destruct (sum_skipna_whole _ Ws) as [b Hb].
  unfold s, subtotal_row. cbv zeta.
  cbn [Target OB_Total_mn Sales_Total_mn OB_Remaining Sales_Remaining
       OB_Achiev_pct Sales_Achiev_pct if_not_None].
  fold resolved. rewrite !div_scale, Ha, Hb. unfold EMP_DEC.
  fold (of_Z a) (of_Z b). rewrite !round_of_Z.
  destruct (whole_cases resolved Wr) as [Hr|[t Hr]]; rewrite Hr.
  - do 5 (split; [reflexivity|]). intros m t _ _ E. discriminate E.
  - rewrite !round_of_Z, !sub_of_Z, !round_of_Z.
    do 5 (split; [reflexivity|]). intros m t0 _ Ht0 E.
    apply of_Z_inj in E. subst t0.
    split; intros Ex; now apply achievement_at_multiple.
Qed.

Lemma subtotal_row_arithmetic_witness :
  let emp_targets := to_dict [(PStr "Arun", of_Z 200); (PStr "Mahesh", of_Z 50)] in
  let sub := reconcile [sample "Arun" "PP1" 100; sample "Mahesh" "PP2" 25]
                       [sample "Arun" "PP1" 40] in
  let s := subtotal_row emp_targets "OD" sub in
  Target s = PyFloat (cl_target emp_targets "OD" sub)
  /\ cl_target emp_targets "OD" sub = of_Z 250
  /\ OB_Remaining s = PyFloat (Num.sub (cl_target emp_targets "OD" sub) (OB_Total_mn s)).
Proof.
  intros emp_targets sub s.
  destruct (subtotal_row_arithmetic emp_targets "OD" sub
              eq_refl eq_refl eq_refl eq_refl) as (H1 & _ & _ & H2 & _).
  split; [exact H1|]. split; [|exact H2].
  num_eq.
Defined.

(* ================================================================== *)
(** * The template generator *)
(* ================================================================== *)

Lemma forallb_unique (p : pyobj -> bool) (l : list pyobj) :
  (forall x, In x l -> p x = true) -> forallb p (unique pyobj_eqb l) = true.
Proof.
  intros H. apply forallb_forall. intros x Hx.
  apply H. now rewrite (unique_In pyobj_eqb pyobj_leb pyobj_eqb_eq) in Hx.
Qed.

Lemma forallb_false_in (A : Type) (p : A -> bool) (l : list A) (x : A) :
  In x l -> p x = false -> forallb p l = false.
Proof.
  intros Hin Hp. destruct (forallb p l) eqn:E; [|reflexivity].
  rewrite forallb_forall in E. rewrite (E x Hin) in Hp. discriminate.
Qed.

Lemma named_cells_In (df : sheet) (e : pyobj) :
  In e (unique pyobj_eqb
          (filter (fun e => negb (isnull e)) (map Employee_Responsible (body df))))
  <-> e <> PNull /\ In e (map Employee_Responsible (body df)).
Proof.
  rewrite (unique_In pyobj_eqb pyobj_leb pyobj_eqb_eq), filter_In.
  destruct e; simpl; split; intros [H1 H2]; split; congruence.
Qed.



(** X13.  The template route raises instead of answering in two cases: an
    uncaught [KeyError] when no label of the sheet is [Employee Responsible]
    once stripped, and, on a sheet with distinct labels, an uncaught
    [TypeError] from [sorted] when that column holds both a string and a
    number. *)
Theorem template_failures (df : sheet) :
  (has_column df "Employee Responsible" = false ->
   generate_target_template df = TemplateKeyError "Employee Responsible")
  /\ (distinct_columns df = true ->
      has_column df "Employee Responsible" = true ->
      (exists s, In (PStr s) (map Employee_Responsible (body df))) ->
      (exists q, In (PNum q) (map Employee_Responsible (body df))) ->
      generate_target_template df = TemplateTypeError).
Proof.
  unfold has_column, generate_target_template. split.
  - intros ->. reflexivity.
  - intros _ -> [s Hs] [q Hq]. unfold py_sorted.
    rewrite (forallb_false_in is_str _ (PNum q)), (forallb_false_in is_num _ (PStr s));
      try reflexivity; apply named_cells_In; split; try discriminate; assumption.
Qed.

Lemma template_failures_witness :
  generate_target_template
    {| columns := ["Employee Responsible"]%string;
       body := [sample "Arun" "PP1" 1;
                {| Employee_Responsible := PNum (Q2Qc 7);
                   Helios_Code := PStr "HD2"; MINR_2025 := of_Z 2 |}] |}
  = TemplateTypeError.
Proof.
  apply (proj2 (template_failures _)).
  - reflexivity.
  - reflexivity.
  - exists "Arun"%string. left. reflexivity.
  - exists (Q2Qc 7). right. left. reflexivity.
Defined.

Lemma last_value_blank_value (l : list pyobj) (k : pyobj) (v : num) :
  last_value k (map (fun e => (e, NaN)) l) = Some v -> v = NaN.
Proof.
  induction l as [|x l IH]; [discriminate|].
  cbn [map last_value fst snd].
  destruct (last_value k (map (fun e => (e, NaN)) l)) as [w|].
  - exact IH.
  - destruct (pyobj_eqb x k); [congruence | discriminate].
Qed.

Lemma last_value_blank (l : list pyobj) (k : pyobj) :
  In k l -> last_value k (map (fun e => (e, NaN)) l) = Some NaN.
Proof.
  induction l as [|x l IH]; [contradiction|].
  cbn [map last_value fst snd].
  destruct (last_value k (map (fun e => (e, NaN)) l)) as [v|] eqn:E.
  - intros _. f_equal. now apply (last_value_blank_value l k).
  - intros [->|Hin].
    + now rewrite pyobj_eqb_refl.
    + discriminate (IH Hin).
Qed.

Lemma read_targets_blank (l : list pyobj) :
  read_targets (map (fun e => (e, PyNone)) l) = map (fun e => (e, NaN)) l.
Proof. unfold read_targets. rewrite map_map. reflexivity. Qed.

Lemma to_dict_blank (l : list pyobj) (k : pyobj) (default : num) :
  In k l ->
  dict_get (to_dict (read_targets (map (fun e => (e, PyNone)) l))) k default = zero.
Proof.
  intros Hk. rewrite read_targets_blank. unfold to_dict.
  now rewrite fold_dict_set_get, (last_value_blank l k Hk).
Qed.

(** X14.  A template uploaded as generated, with no Target filled in, reads
    back as target 0 for every named employee of the sheet it was made
    from and for each of its six BU names: no lookup of such a name falls
    back to the caller's default. *)
Theorem unfilled_template_targets (df : sheet)
  (employee_targets bu_targets : list (pyobj * pyval)) :
  generate_target_template df = Workbook employee_targets bu_targets ->
  (forall (name : pyobj) (default : num),
      name <> PNull -> In name (map Employee_Responsible (body df)) ->
      dict_get (to_dict (read_targets employee_targets)) name default = zero)
  /\ (forall (b : string) (default : num),
        In b TEMPLATE_BUS ->
        dict_get (to_dict (read_targets bu_targets)) (PStr b) default = zero).
Proof.
  unfold generate_target_template.
  destruct (PyStr.mem "Employee Responsible" (map PyStr.strip (columns df)));
    [|discriminate].
  unfold py_sorted.
  destruct (forallb is_str _ || forallb is_num _); [|discriminate].
  intros [= <- <-]. split.
  - intros name default Hn Hin. apply to_dict_blank.
    rewrite sort_keys_In. apply named_cells_In. now split.
  - intros b default Hb.
    change (dict_get (to_dict (read_targets
              (map (fun e => (e, PyNone)) (map PStr TEMPLATE_BUS))))
              (PStr b) default = zero).
    apply to_dict_blank. now apply in_map.
Qed.

Lemma unfilled_template_targets_witness :
  let df := {| columns := ["Employee Responsible"]%string;
               body := [sample "Rahul" "PP1" 1; sample "Arun" "HD2" 2] |} in
  exists employee_targets bu_targets,
    generate_target_template df = Workbook employee_targets bu_targets
    /\ dict_get (to_dict (read_targets employee_targets)) (PStr "Arun") NaN = zero.
Proof.
  intros df. do 2 eexists. split; [reflexivity|].
  refine (proj1 (unfilled_template_targets df eq_refl) (PStr "Arun") NaN _ _).
  - discriminate.
  - right. left. reflexivity.
Defined.

Lemma bu_value_unknown (df : list record) (b : string) :
  ~ In b BUS -> bu_value (bu_grp df) (PStr b) = zero.
Proof.
  intros Hb. unfold bu_value. rewrite filter_none; [reflexivity|].
  intros line Hl. cbn [pyobj_eqb]. apply String.eqb_neq. intros E.
  apply Hb. rewrite <- E. apply (bu_grp_labels df). now apply in_map.
Qed.

(** X15.  The template offers a BU named PS, but [get_bu_from_helios] files
    the codes that begin with PS under SP: a BU-targets line named PS never
    meets a sale, so its row always reports 0 sales and 0 OB and leaves its
    whole target as remaining. *)
Theorem ps_target_never_matched (df_sales df_ob : list record) (bu_target : num) :
  let r := bu_performance_row (bu_grp df_sales) (bu_grp df_ob)
                              (PStr "PS", bu_target) in
  In "PS"%string TEMPLATE_BUS
  /\ (forall x, starts_with x "PS" -> get_bu_from_helios x = "SP"%string)
  /\ Sales_mn r = zero /\ OB_mn r = zero
  /\ Sales_Remaining_mn r = Target_mn r /\ OB_Remaining_mn r = Target_mn r.
Proof.
  intros r.
  assert (Hps : ~ In "PS"%string BUS).
  { unfold BUS. simpl. intros H.
    repeat (destruct H as [H|H]; [discriminate H|]). exact H. }
  assert (Hz : forall x : num, Num.sub x zero = x).
  { intros [|q]; [reflexivity|]. unfold Num.sub, zero, of_Z, lift2. f_equal.
    change (Q2Qc (inject_Z 0)) with (0%Qc). ring. }
  split; [simpl; tauto|]. split.
  - intros x [rest ->]. unfold get_bu_from_helios, PyStr.startswith.
    rewrite (proj2 (prefix_iff "PS" ("PS" ++ rest)) (ex_intro _ rest eq_refl)).
    reflexivity.
  - unfold r, bu_performance_row. cbv zeta.
    cbn [Sales_mn OB_mn Sales_Remaining_mn OB_Remaining_mn Target_mn fst snd].
    rewrite !(bu_value_unknown _ Hps), !div_scale, !Hz.
    rewrite zero_is_cents. unfold EMP_DEC. rewrite round_cents.
    repeat split.
Qed.

(* ================================================================== *)
(** * Pivot-1: the Total line *)
(* ================================================================== *)

Lemma map_seq_nth (A B : Type) (g : A -> B) (l : list A) (h : nat -> B) :
  (forall i a, nth_error l i = Some a -> h i = g a) ->
  map h (seq 0 (List.length l)) = map g l.
Proof.
  revert h. induction l as [|a l IH]; intros h H; [reflexivity|].
  cbn [List.length seq map]. rewrite (H 0%nat a eq_refl). f_equal.
  rewrite <- seq_shift, map_map. apply IH.
  intros i b Hb. now apply (H (S i)).
Qed.

Lemma sum_skipna_map_Fin (A : Type) (g : A -> Qc) (l : list A) :
  sum_skipna (map (fun a => Fin (g a)) l) = qsum (map g l).
Proof.
  induction l as [|a l IH]; [reflexivity|].
  cbn [map]. rewrite sum_skipna_cons, IH. reflexivity.
Qed.

Lemma pivot1_cell_sum (df : list (string * record)) (code : pyobj) (k : key) :
  pivot1_cell df code k
  = Fin (sum_skipna
           (map snd (filter (fun r => pyobj_eqb (fst (fst r)) code
                                      && key_eqb (snd (fst r)) k)
                            (pivot1_frame df)))).
Proof. unfold pivot1_cell. destruct (filter _ (pivot1_frame df)); reflexivity. Qed.

Lemma rows_of_code (f : list ((pyobj * key) * num)) (code : pyobj) (k : key) :
  map snd (rows_of pyobj_eqb code
             (map (fun r => (fst (fst r), snd r))
                  (filter (fun r => key_eqb (snd (fst r)) k) f)))
  = map snd (filter (fun r => pyobj_eqb (fst (fst r)) code
                              && key_eqb (snd (fst r)) k) f).
Proof.
  unfold rows_of. induction f as [|r f IH]; [reflexivity|].
  cbn [filter]. destruct (key_eqb (snd (fst r)) k); cbn [map filter fst].
  - rewrite andb_true_r. destruct (pyobj_eqb (fst (fst r)) code);
      cbn [map snd]; now rewrite IH.
  - rewrite andb_false_r. exact IH.
Qed.

Lemma pivot1_frame_rows (df : list record) (k : key) :
  snd k <> PNull ->
  map snd (filter (fun r => key_eqb (snd (fst r)) k) (pivot1_frame (add_cluster df)))
  = map MINR_2025 (coded_rows df k).
Proof.
  intros Hk. unfold pivot1_frame, coded_rows, source_rows, add_cluster.
  induction df as [|r df IH]; [reflexivity|].
  cbn [map filter snd fst]. fold (key_of r).
  destruct (isnull (Helios_Code r)) eqn:Eh; cbn [negb andb].
  - destruct (key_eqb (key_of r) k); cbn [filter]; [rewrite Eh|]; exact IH.
  - destruct (isnull (Employee_Responsible r)) eqn:Ee; cbn [negb].
    + destruct (key_eqb (key_of r) k) eqn:E; [|exact IH].
      apply key_eqb_eq in E. subst k. cbn [key_of snd] in Hk.
      destruct (Employee_Responsible r); try discriminate. congruence.
    + cbn [map filter fst snd]. fold (key_of r).
      destruct (key_eqb (key_of r) k); cbn [filter map snd].
      * rewrite Eh. cbn [negb map]. now rewrite IH.
      * exact IH.
Qed.

Lemma pivot1_columns_nonnull (df : list record) (k : key) :
  In k (pivot1_columns (add_cluster df)) -> snd k <> PNull.
Proof.
  unfold pivot1_columns.
  rewrite (sorted_unique_In key_eqb key_leb key_eqb_eq), in_map_iff.
  intros (r & <- & Hr). unfold pivot1_frame in Hr. apply in_map_iff in Hr.
  destruct Hr as (cr & <- & Hcr). apply filter_In in Hcr.
  destruct Hcr as [_ Hcr]. apply andb_true_iff in Hcr. destruct Hcr as [_ Hn].
  cbn [fst snd]. destruct (Employee_Responsible (snd cr)); simpl in *; congruence.
Qed.

Lemma pivot1_column_sum (df : list (string * record)) (k : key) :
  sum_skipna (map (fun code => pivot1_cell df code k) (pivot1_index df))
  = sum_skipna (map snd (filter (fun r => key_eqb (snd (fst r)) k)
                                (pivot1_frame df))).
Proof.
  rewrite (map_ext _ _ (fun code => pivot1_cell_sum df code k)).
  rewrite sum_skipna_map_Fin.
  rewrite (map_ext _ _ (fun code => eq_sym (f_equal sum_skipna
                                       (rows_of_code (pivot1_frame df) code k)))).
  rewrite (sum_by_key pyobj_eqb pyobj_eqb_eq).
  - now rewrite map_map.
  - apply (sorted_unique_NoDup pyobj_eqb pyobj_leb pyobj_eqb_eq).
  - intros r Hr. apply in_map_iff in Hr. destruct Hr as (r0 & <- & Hr0).
    apply filter_In in Hr0. destruct Hr0 as [Hr0 _]. cbn [fst].
    apply (sorted_unique_In pyobj_eqb pyobj_leb pyobj_eqb_eq).
    now apply (in_map (fun r => fst (fst r))).
Qed.

Lemma total_row_cells (df_sales : list record) :
  total_row (List.length (pivot1_columns (add_cluster df_sales)))
            (pivot_table (add_cluster df_sales))
  = map (fun k => Fin (sum_skipna (map MINR_2025 (coded_rows df_sales k))))
        (pivot1_columns (add_cluster df_sales)).
Proof.
  unfold total_row. apply map_seq_nth. intros i k Hk. f_equal.
  assert (Hn : snd k <> PNull).
  { apply (pivot1_columns_nonnull df_sales). eapply nth_error_In; eauto. }
  rewrite <- (pivot1_frame_rows df_sales k Hn).
  rewrite <- pivot1_column_sum. f_equal.
  unfold column_at, pivot_table. rewrite map_map. apply map_ext.
  intros code. cbn [snd]. apply nth_error_nth.
  now apply map_nth_error.
Qed.


Lemma pivot1_frame_keys (df : list record) :
  Forall (fun r => Helios_Code r <> PNull) df ->
  map (fun r => snd (fst r)) (pivot1_frame (add_cluster df))
  = map fst (grp_frame df).
Proof.
  unfold pivot1_frame, grp_frame, add_cluster.
  induction 1 as [|r df Hr _ IH]; [reflexivity|].
  cbn [map filter snd fst].
  assert (E : isnull (Helios_Code r) = false)
    by (destruct (Helios_Code r); try reflexivity; congruence).
  rewrite E. cbn [negb andb].
  destruct (isnull (Employee_Responsible r)); cbn [negb];
    [exact IH | cbn [map fst snd]; now rewrite IH].
Qed.



(* ================================================================== *)
(** * Styling of subtotal rows *)
(* ================================================================== *)

Lemma append_assoc (a b c : string) :
  ((a ++ b) ++ c)%string = (a ++ b ++ c)%string.
Proof. induction a as [|x a IH]; simpl; [reflexivity | now rewrite IH]. Qed.

Lemma append_empty_r (a : string) : (a ++ "")%string = a.
Proof. induction a as [|x a IH]; simpl; [reflexivity | now rewrite IH]. Qed.

(** X18.  The styling test marks every subtotal row, and marks an employee
    row exactly when the employee is a string in which "Total" occurs: such
    an employee is shown as if it were a subtotal. *)
Theorem highlight_rows (emp_targets : dict) (clust : string) (sub : list mrow)
  (r : mrow) :
  highlight_subtotal_row (subtotal_row emp_targets clust sub) = true
  /\ (highlight_subtotal_row (emp_row emp_targets clust r) = true
      <-> exists s, m_Employee_Responsible r = PStr s /\ occurs "Total" s).
Proof.
  unfold highlight_subtotal_row, subtotal_row, emp_row. cbv zeta. cbn [Name].
  split.
  - apply contains_iff. exists (clust ++ " ")%string, ""%string.
    now rewrite append_empty_r, append_assoc.
  - destruct (m_Employee_Responsible r) as [s|q|].
    + rewrite contains_iff. split; [eauto|]. now intros (s' & [= <-] & H).
    + split; [discriminate | intros (s' & H & _); discriminate H].
    + split; [discriminate | intros (s' & H & _); discriminate H].
Qed.

(* ================================================================== *)
(** * How a request ends *)
(* ================================================================== *)

(** The loop produces no employee row exactly when no row of either sheet
    names an employee. *)
Lemma no_emp_rows (df_sales df_ob : list record) (emp_targets : dict) :
  emp_rows_of_blocks (pivot2 df_sales df_ob emp_targets) = []
  <-> named_rows df_sales = [] /\ named_rows df_ob = [].
Proof.
  assert (K : forall df, named_rows df = [] <->
                         forall k, ~ In k (map fst (grp (add_cluster df)))).
  { intros df. split.
    - intros Hn k Hk. apply grp_key_iff in Hk. destruct Hk as [Hnn Hs].
      unfold source_rows in Hs.
      destruct (filter (fun r => key_eqb (key_of r) k) df) as [|r rs] eqn:E;
        [now apply Hs|].
      assert (Hr : In r (filter (fun r => key_eqb (key_of r) k) df))
        by (rewrite E; now left).
      apply filter_In in Hr. destruct Hr as [Hin Hk].
      apply key_eqb_eq in Hk.
      assert (Hnamed : In r (named_rows df)).
      { apply filter_In. split; [exact Hin|].
        destruct (Employee_Responsible r) eqn:Er; try reflexivity.
        exfalso. apply Hnn. rewrite <- Hk. unfold key_of. cbn [snd]. exact Er. }
      rewrite Hn in Hnamed. destruct Hnamed.
    - intros H. destruct (named_rows df) as [|r rs] eqn:E; [reflexivity|].
      exfalso. apply (H (key_of r)). apply grp_key_iff.
      assert (Hr : In r (named_rows df)) by (rewrite E; now left).
      apply filter_In in Hr. destruct Hr as [Hin Hn].
      split.
      + unfold key_of. cbn [snd]. intros Er. rewrite Er in Hn. discriminate.
      + unfold source_rows. intros Hs.
        assert (Hr : In r (filter (fun r0 => key_eqb (key_of r0) (key_of r)) df)).
        { apply filter_In. split; [exact Hin | now apply key_eqb_eq]. }
        rewrite Hs in Hr. destruct Hr. }
  assert (M : emp_rows_of_blocks (pivot2 df_sales df_ob emp_targets) = []
              <-> merged_keys df_sales df_ob = []).
  { unfold pivot2.
    pose proof (emp_rows_keys emp_targets (reconcile df_sales df_ob)
                  (reconcile_clusters_sorted df_sales df_ob)) as E.
    rewrite reconcile_normal in E at 2. rewrite map_map in E.
    split; intros H.
    - rewrite H in E. cbn [map] in E. symmetry in E.
      apply map_eq_nil in E. exact E.
    - rewrite H in E. cbn [map] in E. apply map_eq_nil in E. exact E. }
  rewrite M, !K. split.
  - intros H. split; intros k Hk;
      assert (Hin : In k (merged_keys df_sales df_ob))
        by (apply merged_keys_In; tauto);
      rewrite H in Hin; destruct Hin.
  - intros [Hs Ho]. destruct (merged_keys df_sales df_ob) as [|k ks] eqn:E;
      [reflexivity|].
    assert (Hin : In k (merged_keys df_sales df_ob)) by (rewrite E; now left).
    apply merged_keys_In in Hin. destruct Hin as [Hin|Hin]; [now apply Ho in Hin | now apply Hs in Hin].
Qed.



